(** * games-catalogue: the Lambda request handler over its DynamoDB table

    A shallow embedding of [src/lambda/lambda_function.py].  The module
    keeps one DynamoDB table, keyed by (platform, game_id), and answers
    HTTP-like events with an HTML page or a redirect.

    What is modelled and how:
    - the table is a finite map from the composite primary key to the
      remaining attributes of the item; an item read back always carries
      its key, as DynamoDB guarantees;
    - attribute values are the two kinds the code writes: strings and NULL
      (boto3 stores Python's [None] as NULL and reads it back as [None]);
    - handlers run in a state-and-exception monad over the table;
    - [uuid.uuid4()] and [datetime.now()] read the environment: the 16
      random bytes and the clock reading of the invocation are inputs;
    - [urllib.parse.parse_qs] and the Jinja environment with its template
      files are collaborators outside this file: the handler is stated
      over any parser and any renderer.

    Outside the model: the [print] diagnostics, the order in which scan
    and query return items (listings are compared up to permutation), and
    service-side failures of the storage calls. *)

From Stdlib Require Import NArith ZArith Ascii String.
From stdpp Require Import base option list gmap strings sorting fin_maps pretty.

Open Scope string_scope.

(** ** Python values *)

(** The exceptions the module can raise: the explicit [ValueError] of the
    validation, and [KeyError] from subscripting the event. *)
Inductive exn :=
  | KeyError (key : string)
  | ValueError (msg : string).

(** [str(e)]: the message of a [ValueError]; the quoted key of a
    [KeyError] (the keys subscripted here need no escaping). *)
Definition str_exn (e : exn) : string :=
  match e with
  | KeyError k => "'" ++ k ++ "'"
  | ValueError m => m
  end.

Inductive outcome (A : Type) :=
  | Returned (a : A)
  | Raised (e : exn).
Arguments Returned {A} a.
Arguments Raised {A} e.

(** A form body after [{k: v[0] for k, v in parse_qs(...).items()}]. *)
Abbreviation form := (gmap string string).

(** ** The table *)

Inductive attr :=
  | AttrS (s : string)
  | AttrNull.

Global Instance attr_eq_dec : EqDecision attr.
Proof. solve_decision. Defined.

(** boto3's serialisation of an optional Python string. *)
Definition attr_of (o : option string) : attr :=
  match o with
  | Some s => AttrS s
  | None => AttrNull
  end.

Abbreviation attrs := (gmap string attr).
Abbreviation key := (string * string)%type.
Abbreviation table := (gmap (string * string) (gmap string attr)).

(** An item as the listings return it: the two key attributes and the
    other attributes. *)
Record item := Item {
  platform : string;
  game_id : string;
  fields : attrs
}.

Global Instance item_eq_dec : EqDecision item.
Proof. solve_decision. Defined.

Definition item_key (g : item) : key := (platform g, game_id g).

Definition to_item (kv : key * attrs) : item :=
  Item kv.1.1 kv.1.2 kv.2.

(** ** State and exceptions *)

Definition M (A : Type) : Type := table → outcome A * table.

Definition ret {A} (a : A) : M A := λ t, (Returned a, t).

Definition raise {A} (e : exn) : M A := λ t, (Raised e, t).

Definition bind {A B} (m : M A) (k : A → M B) : M B := λ t,
  match m t with
  | (Returned a, t') => k a t'
  | (Raised e, t') => (Raised e, t')
  end.

Definition try_except {A} (m : M A) (handler : exn → M A) : M A := λ t,
  match m t with
  | (Returned a, t') => (Returned a, t')
  | (Raised e, t') => handler e t'
  end.

Definition lift {A} (o : outcome A) : M A := λ t, (o, t).

Notation "'let*' x ':=' m 'in' k" := (bind m (λ x, k))
  (at level 10, x name, m at level 200, k at level 200, only parsing).

(** The table a computation leaves behind. *)
Definition after {A} (m : M A) (t : table) : table := (m t).2.

(** ** DynamoDB operations *)

(** FilterExpression ["attribute_not_exists(#s) OR #s = :owned"]. *)
Definition is_owned (a : attrs) : Prop :=
  a !! "status" = None ∨ a !! "status" = Some (AttrS "owned").

(** FilterExpression ["#s = :wishlist"]. *)
Definition is_wishlist (a : attrs) : Prop :=
  a !! "status" = Some (AttrS "wishlist").

Global Instance is_owned_dec a : Decision (is_owned a).
Proof. unfold is_owned. apply _. Defined.

Global Instance is_wishlist_dec a : Decision (is_wishlist a).
Proof. unfold is_wishlist. apply _. Defined.

(** The items of the table that pass a condition on key and attributes,
    as one scan or query call returns them. *)
Definition select (Q : key * attrs → Prop) `{∀ kv, Decision (Q kv)}
    (t : table) : list item :=
  to_item <$> map_to_list (filter Q t).

Definition scan (P : attrs → Prop) `{∀ a, Decision (P a)} : M (list item) := λ t,
  (Returned (select (λ kv, P kv.2) t), t).

(** KeyConditionExpression ["platform = :platform"] with a filter, for a
    platform that is not the empty string (DynamoDB refuses an empty key
    value; what is stated of [query] at the empty platform is stated of
    this listing only). *)
Definition query (p : string) (P : attrs → Prop) `{∀ a, Decision (P a)}
    : M (list item) := λ t,
  (Returned (select (λ kv, kv.1.1 = p ∧ P kv.2) t), t).

Definition put_item (g : item) : M unit := λ t,
  (Returned (), <[item_key g := fields g]> t).

Definition delete_item (k : key) : M unit := λ t,
  (Returned (), delete k t).

(** UpdateExpression ["SET #n = :v"]: an upsert, the item is created with
    its key and the one attribute when the key is not in the table. *)
Definition update_item_set (k : key) (name : string) (v : attr) : M unit := λ t,
  (Returned (), <[k := <[name := v]> (default ∅ (t !! k))]> t).

(** ** The environment of one invocation *)

Record environ := Environ {
  urandom16 : N;      (* os.urandom(16), read big-endian *)
  now_isoformat : string   (* datetime.now().isoformat() *)
}.

(** [uuid.UUID(bytes=..., version=4)]: variant and version bits forced. *)
Definition uuid4 (e : environ) : N :=
  let int := urandom16 e in
  let int := N.ldiff int (N.shiftl 0xc000 48) in
  let int := N.lor int (N.shiftl 0x8000 48) in
  let int := N.ldiff int (N.shiftl 0xf000 64) in
  N.lor int (N.shiftl 4 76).

Definition hex_digit (n : N) : ascii :=
  match n with
  | 0 => "0" | 1 => "1" | 2 => "2" | 3 => "3" | 4 => "4" | 5 => "5"
  | 6 => "6" | 7 => "7" | 8 => "8" | 9 => "9" | 10 => "a" | 11 => "b"
  | 12 => "c" | 13 => "d" | 14 => "e" | _ => "f"
  end%N%char.

(** The [len] hex digits of [n] from digit [len - 1] down to digit 0,
    followed by [rest]. *)
Fixpoint hex_field (len : nat) (n : N) (rest : string) : string :=
  match len with
  | O => rest
  | S len' =>
      String (hex_digit (N.land (N.shiftr n (4 * N.of_nat len')) 0xf))
             (hex_field len' n rest)
  end.

(** [str(uuid)]: ['%032x'] cut as 8-4-4-4-12. *)
Definition str_uuid (n : N) : string :=
  hex_field 8 (N.shiftr n 96) (String "-"
  (hex_field 4 (N.shiftr n 80) (String "-"
  (hex_field 4 (N.shiftr n 64) (String "-"
  (hex_field 4 (N.shiftr n 48) (String "-"
  (hex_field 12 n "")))))))).

(** ** Data access functions *)

Definition get_all_games_data : M (list item) := scan is_owned.

Definition get_games_by_platform_data (p : string) : M (list item) :=
  query p is_owned.

Definition get_wishlist_data : M (list item) := scan is_wishlist.

(** A field passes [all([...])] when it is present and not empty. *)
Definition required (o : option string) : option string :=
  match o with
  | Some s => if decide (s = "") then None else Some s
  | None => None
  end.

Definition add_game (e : environ) (body : form) : M unit :=
  let game_id := str_uuid (uuid4 e) in
  let platform := body !! "platform" in
  let game_name := body !! "game_name" in
  let genre := body !! "genre" in
  let year := body !! "year" in
  match required platform, required game_name with
  | Some platform, Some game_name =>
      put_item {|
        platform := platform;
        game_id := game_id;
        fields := list_to_map [
          ("game_name", AttrS game_name);
          ("genre", attr_of genre);
          ("year", attr_of year);
          ("status", AttrS "owned");
          ("added_date", AttrS (now_isoformat e)) ]
      |}
  | _, _ => raise (ValueError "Missing required fields: platform, game_name")
  end.

Definition add_to_wishlist (e : environ) (body : form) : M unit :=
  let game_id := str_uuid (uuid4 e) in
  let platform := body !! "platform" in
  let game_name := body !! "game_name" in
  let genre := body !! "genre" in
  let year := body !! "year" in
  match required platform, required game_name with
  | Some platform, Some game_name =>
      put_item {|
        platform := platform;
        game_id := game_id;
        fields := list_to_map [
          ("game_name", AttrS game_name);
          ("genre", attr_of genre);
          ("year", attr_of year);
          ("status", AttrS "wishlist");
          ("added_date", AttrS (now_isoformat e)) ]
      |}
  | _, _ => raise (ValueError "Missing required fields: platform, game_name")
  end.

Definition delete_game (body : form) : M unit :=
  let platform := body !! "platform" in
  let game_id := body !! "game_id" in
  match required platform, required game_id with
  | Some platform, Some game_id => delete_item (platform, game_id)
  | _, _ => raise (ValueError "Missing required fields: platform, game_id")
  end.

Definition delete_from_wishlist (body : form) : M unit :=
  let platform := body !! "platform" in
  let game_id := body !! "game_id" in
  match required platform, required game_id with
  | Some platform, Some game_id => delete_item (platform, game_id)
  | _, _ => raise (ValueError "Missing required fields: platform, game_id")
  end.

Definition mark_as_purchased (body : form) : M unit :=
  let platform := body !! "platform" in
  let game_id := body !! "game_id" in
  match required platform, required game_id with
  | Some platform, Some game_id =>
      update_item_set (platform, game_id) "status" (AttrS "owned")
  | _, _ => raise (ValueError "Missing required fields: platform, game_id")
  end.

(** ** Requests and responses *)

(** [event["requestContext"]["http"]], the Function URL shape. *)
Record http_info := HttpInfo {
  http_method : option string;
  http_path : option string
}.

(** The event: every key may be absent, and a key that is there holds a
    string (a dictionary for "requestContext").  [ev_requestContext] is
    [Some None] when the key is there without an ["http"] entry. *)
Record event := Event {
  ev_requestContext : option (option http_info);
  ev_httpMethod : option string;
  ev_path : option string;
  ev_body : option string
}.

Record response := Response {
  statusCode : Z;
  headers : list (string * string);
  body : string
}.

(** The values handed to a template. *)
Inductive jvalue :=
  | JInt (n : Z)
  | JStr (s : string)
  | JItems (l : list item)
  | JStrs (l : list string).

(** [d[k]] on an event dictionary. *)
Definition subscript (k : string) (o : option string) : outcome string :=
  match o with
  | Some v => Returned v
  | None => Raised (KeyError k)
  end.

(** [s[n:]]. *)
Fixpoint slice_from (n : nat) (s : string) : string :=
  match n, s with
  | S n', String _ s' => slice_from n' s'
  | _, _ => s
  end.

(** [s.lstrip("/")]. *)
Fixpoint lstrip_slash (s : string) : string :=
  match s with
  | String c s' => if decide (c = "/"%char) then lstrip_slash s' else s
  | EmptyString => s
  end.

(** [sorted(set(l))] on strings. *)
Definition sorted_set (l : list string) : list string :=
  merge_sort String.le (elements (list_to_set l : gset string)).

(** Method and path as the handler reads them off the event, before the
    [try] block. *)
Definition request_line (ev : event) : outcome (string * string) :=
  match ev_requestContext ev with
  | Some (Some http) =>
      match subscript "method" (http_method http) with
      | Returned m =>
          match subscript "path" (http_path http) with
          | Returned p => Returned (m, p)
          | Raised e => Raised e
          end
      | Raised e => Raised e
      end
  | _ => Returned (default "GET" (ev_httpMethod ev), default "/" (ev_path ev))
  end.

(** The path after the "/gc" prefix is stripped and an empty path is
    replaced by "/". *)
Definition routed_path (path : string) : string :=
  let path := if String.prefix "/gc" path then slice_from 3 path else path in
  if decide (path = "") then "/" else path.

Definition redirect_response (location : string) : response :=
  {| statusCode := 303;
     headers := [("Location", location)];
     body := "" |}.

Section Handler.

(** [urllib.parse.parse_qs] with its defaults: every name it returns
    comes with a non-empty list of values, here head and tail. *)
Variable parse_qs : string → gmap string (string * list string).

(** The Jinja environment: a template name and its keyword arguments to
    the rendered text. *)
Variable jinja_render : string → list (string * jvalue) → string.

Definition render_html (template_name : string)
    (kwargs : list (string * jvalue)) : response :=
  let html := jinja_render template_name kwargs in
  {| statusCode := 200;
     headers := [("Content-Type", "text/html; charset=utf-8")];
     body := html |}.

(** [{k: v[0] for k, v in parse_qs(event["body"]).items()}]. *)
Definition form_body (ev : event) : M form :=
  let* raw := lift (subscript "body" (ev_body ev)) in
  ret (fst <$> parse_qs raw).

Definition not_found : M response :=
  ret (render_html "error.html"
         [("status_code", JInt 404); ("message", JStr "Not found")]).

(** The body of the [try] block. *)
Definition dispatch (e : environ) (ev : event)
    (http_method path : string) : M response :=
  if decide (http_method = "GET") then
    if decide (path = "/") then
      let* games := get_all_games_data in
      let platforms := sorted_set (platform <$> games) in
      ret (render_html "index.html"
             [("games", JItems games); ("platforms", JStrs platforms)])
    else if decide (path = "/wishlist") then
      let* wishlist := get_wishlist_data in
      let platforms := sorted_set (platform <$> wishlist) in
      ret (render_html "wishlist.html"
             [("wishlist", JItems wishlist); ("platforms", JStrs platforms)])
    else
      let platform_ := lstrip_slash path in
      let* games := get_games_by_platform_data platform_ in
      let platforms := sorted_set (platform <$> games) in
      ret (render_html "index.html"
             [("games", JItems games); ("platforms", JStrs platforms);
              ("selected_platform", JStr platform_)])
  else if decide (http_method = "POST") then
    let* body := form_body ev in
    if decide (path = "/add") then
      let* _ := add_game e body in
      let platform_ := default "" (body !! "platform") in
      let redirect_url :=
        if decide (platform_ = "") then "/gc" else "/gc/" ++ platform_ in
      ret (redirect_response redirect_url)
    else if decide (path = "/wishlist/add") then
      let* _ := add_to_wishlist e body in
      ret (redirect_response "/gc/wishlist")
    else if decide (path = "/wishlist/purchased") then
      let* _ := mark_as_purchased body in
      ret (redirect_response "/gc/wishlist")
    else not_found
  else if decide (http_method = "DELETE") then
    let* body := form_body ev in
    if decide (path = "/delete") then
      let* _ := delete_game body in
      let platform_ := default "" (body !! "platform") in
      let redirect_url :=
        if decide (platform_ = "") then "/" else "/" ++ platform_ in
      ret (redirect_response redirect_url)
    else if decide (path = "/wishlist/delete") then
      let* _ := delete_from_wishlist body in
      ret (redirect_response "/wishlist")
    else not_found
  else not_found.

(** The page shown for an exception caught at the top level. *)
Definition error_page (ex : exn) : response :=
  render_html "error.html"
    [("status_code", JInt 500); ("message", JStr (str_exn ex))].

Definition lambda_handler (e : environ) (ev : event) : M response :=
  let* line := lift (request_line ev) in
  let http_method := line.1 in
  let path := routed_path line.2 in
  try_except (dispatch e ev http_method path) (λ ex, ret (error_page ex)).

End Handler.

(** ** Sequences of write calls *)

(** The five writers, as the dispatcher calls them one request after the
    other.  A call that raises leaves the table as it found it. *)
Inductive call :=
  | AddGame (e : environ) (body : form)
  | AddToWishlist (e : environ) (body : form)
  | DeleteGame (body : form)
  | DeleteFromWishlist (body : form)
  | MarkAsPurchased (body : form).

Definition perform (c : call) : M unit :=
  match c with
  | AddGame e body => add_game e body
  | AddToWishlist e body => add_to_wishlist e body
  | DeleteGame body => delete_game body
  | DeleteFromWishlist body => delete_from_wishlist body
  | MarkAsPurchased body => mark_as_purchased body
  end.

Definition run (cs : list call) (t : table) : table :=
  foldl (λ t c, after (perform c) t) t cs.

(** The call marks the record under key [k] as purchased. *)
Definition purchases (k : key) (c : call) : Prop :=
  match c with
  | MarkAsPurchased body =>
      body !! "platform" = Some k.1 ∧ body !! "game_id" = Some k.2
  | _ => False
  end.

(** The call draws [id] as the identifier of the record it creates. *)
Definition generates (id : string) (c : call) : Prop :=
  match c with
  | AddGame e _ | AddToWishlist e _ => str_uuid (uuid4 e) = id
  | _ => False
  end.

(** The call neither marks the record under [k] as purchased nor draws
    its game_id for a new record. *)
Definition leaves_alone (k : key) (c : call) : Prop :=
  ¬ purchases k c ∧ ¬ generates k.2 c.

(** The attributes [add_game] and [add_to_wishlist] write next to the key. *)
Definition created_fields (status : string) (e : environ) (body : form)
    (game_name : string) : attrs :=
  list_to_map [
    ("game_name", AttrS game_name);
    ("genre", attr_of (body !! "genre"));
    ("year", attr_of (body !! "year"));
    ("status", AttrS status);
    ("added_date", AttrS (now_isoformat e)) ].

(** A listing carries a record under key [k]. *)
Definition listed (k : key) (l : list item) : Prop :=
  ∃ g, g ∈ l ∧ item_key g = k.

(** The listing function returns, without touching the table, a listing
    that carries, or does not carry, a record under key [k]. *)
Definition shows (m : M (list item)) (t : table) (k : key) : Prop :=
  ∃ l, m t = (Returned l, t) ∧ listed k l.

Definition hides (m : M (list item)) (t : table) (k : key) : Prop :=
  ∃ l, m t = (Returned l, t) ∧ ¬ listed k l.

(** ** What the specification says of deletion *)

(** [delete(platform, game_id)]: unconditional delete by composite key,
    after the presence check on both fields. *)
Definition delete_by_key (body : form) : M unit := λ t,
  match body !! "platform", body !! "game_id" with
  | Some p, Some g =>
      if decide (p ≠ "" ∧ g ≠ "")
      then (Returned (), delete (p, g) t)
      else (Raised (ValueError "Missing required fields: platform, game_id"), t)
  | _, _ => (Raised (ValueError "Missing required fields: platform, game_id"), t)
  end.

(** ** A parser and a renderer to run the handler on *)

(** [s.split(sep)]. *)
Fixpoint split (sep : ascii) (s : string) : list string :=
  match s with
  | EmptyString => [""]
  | String c s' =>
      if decide (c = sep) then "" :: split sep s'
      else match split sep s' with
           | w :: ws => String c w :: ws
           | [] => [String c ""]
           end
  end.

(** [s.split("=", 1)], when the separator occurs. *)
Fixpoint split_once (sep : ascii) (s : string) : option (string * string) :=
  match s with
  | EmptyString => None
  | String c s' =>
      if decide (c = sep) then Some ("", s')
      else '(n, v) ← split_once sep s'; Some (String c n, v)
  end.

(** [urllib.parse.parse_qsl] with its defaults (blank values dropped, no
    strict parsing) on a query string free of "%" and "+" escapes, where
    unquoting changes nothing. *)
Definition parse_qsl_unescaped (qs : string) : list (string * string) :=
  omap (λ name_value,
          if decide (name_value = "") then None
          else '(n, v) ← split_once "=" name_value;
               if decide (v = "") then None else Some (n, v))
       (split "&" qs).

(** [urllib.parse.parse_qs] on such a query string: the values of a name
    in their order of occurrence. *)
Definition parse_qs_unescaped (qs : string) : gmap string (string * list string) :=
  foldl (λ (parsed_result : gmap string (string * list string)) nv,
           match parsed_result !! nv.1 with
           | Some (v0, vs) => <[nv.1 := (v0, (vs ++ [nv.2])%list)]> parsed_result
           | None => <[nv.1 := (nv.2, [])]> parsed_result
           end)
        ∅ (parse_qsl_unescaped qs).

(** A renderer that writes the template name and the scalar arguments. *)
Definition show_jvalue (v : jvalue) : string :=
  match v with
  | JInt n => pretty n
  | JStr s => s
  | JItems l => pretty (length l)
  | JStrs l => String.concat "," l
  end.

Definition plain_render (template_name : string)
    (kwargs : list (string * jvalue)) : string :=
  template_name ++
  String.concat "" ((λ kv, " " ++ kv.1 ++ "=" ++ show_jvalue kv.2) <$> kwargs).

(** ** The write routes *)

(** The writer the dispatcher calls for a method and a routed path, if
    any: the rows of the routing table that change the table. *)
Definition write_call (http_method path : string) (e : environ) (body : form)
    : option call :=
  if decide (http_method = "POST") then
    if decide (path = "/add") then Some (AddGame e body)
    else if decide (path = "/wishlist/add") then Some (AddToWishlist e body)
    else if decide (path = "/wishlist/purchased") then Some (MarkAsPurchased body)
    else None
  else if decide (http_method = "DELETE") then
    if decide (path = "/delete") then Some (DeleteGame body)
    else if decide (path = "/wishlist/delete") then Some (DeleteFromWishlist body)
    else None
  else None.

(** The status of a record is one the two listings know: absent or
    "owned", or "wishlist". *)
Definition known_status (a : attrs) : Prop := is_owned a ∨ is_wishlist a.

(** Every record of the table has a known status. *)
Definition statuses_known (t : table) : Prop :=
  ∀ k a, t !! k = Some a → known_status a.

(** ** Sample requests *)

Definition env0 : environ :=
  Environ 0x0123456789abcdef0123456789abcdef "2024-05-01T12:00:00".

Definition env1 : environ :=
  Environ 0xfedcba9876543210fedcba9876543210 "2024-05-02T09:30:00".

(** An event in the Function URL shape and one in the proxy shape. *)
Definition url_event (m p : string) (raw : option string) : event :=
  Event (Some (Some (HttpInfo (Some m) (Some p)))) None None raw.

Definition proxy_event (m p : string) (raw : option string) : event :=
  Event None (Some m) (Some p) raw.

Definition form_of (raw : string) : form := fst <$> parse_qs_unescaped raw.

Definition snes_zelda : form := form_of "platform=SNES&game_name=Zelda".
Definition ps5_astro : form := form_of "platform=PS5&game_name=Astro".

(** The table after one owned game on "SNES" and one on "PS5". *)
Definition two_platforms : table :=
  run [AddGame env0 snes_zelda; AddGame env1 ps5_astro] ∅.

(** * Properties *)

(** ** Listings *)

Section select_facts.
Context (Q : key * attrs → Prop) `{!∀ kv, Decision (Q kv)}.

Lemma elem_of_select t g :
  g ∈ select Q t ↔ t !! item_key g = Some (fields g) ∧ Q (item_key g, fields g).
Proof.
  unfold select. rewrite list_elem_of_fmap. split.
  - intros [[[p i] a] [-> Hin]].
    apply elem_of_map_to_list, map_lookup_filter_Some in Hin. exact Hin.
  - intros [Hlook HQ]. exists (item_key g, fields g). split.
    + by destruct g.
    + by apply elem_of_map_to_list, map_lookup_filter_Some.
Qed.

Lemma listed_select t k :
  listed k (select Q t) ↔ ∃ a, t !! k = Some a ∧ Q (k, a).
Proof.
  unfold listed. split.
  - intros (g & Hin & <-). apply elem_of_select in Hin. eauto.
  - intros (a & Hlook & HQ). exists (to_item (k, a)).
    split; [|by destruct k]. apply elem_of_select. by destruct k.
Qed.

Lemma NoDup_select t : NoDup (select Q t).
Proof.
  unfold select. apply (NoDup_fmap_2_strong to_item).
  - intros [[p i] a] [[p' i'] a'] _ _ Heq. by inversion Heq.
  - apply NoDup_map_to_list.
Qed.

Lemma select_insert_new t k a :
  t !! k = None → Q (k, a) →
  select Q (<[k := a]> t) ≡ₚ to_item (k, a) :: select Q t.
Proof.
  intros Hnone HQ. unfold select.
  rewrite map_filter_insert_True by done.
  rewrite map_to_list_insert; [done|].
  apply map_lookup_filter_None. by left.
Qed.

Lemma select_insert_skip t k a :
  t !! k = None → ¬ Q (k, a) → select Q (<[k := a]> t) = select Q t.
Proof.
  intros Hnone HQ. unfold select.
  rewrite map_filter_insert_not'; [done|done|].
  intros y. by rewrite Hnone.
Qed.
End select_facts.

Lemma shows_scan (P : attrs → Prop) `{!∀ a, Decision (P a)} t k :
  shows (scan P) t k ↔ ∃ a, t !! k = Some a ∧ P a.
Proof.
  unfold shows, scan. split.
  - intros (l & [= <-] & Hl). by apply listed_select in Hl.
  - intros Ha. eexists. split; [done|]. by apply listed_select.
Qed.

Lemma hides_scan (P : attrs → Prop) `{!∀ a, Decision (P a)} t k :
  hides (scan P) t k ↔ ∀ a, t !! k = Some a → ¬ P a.
Proof.
  unfold hides, scan. split.
  - intros (l & [= <-] & Hl) a Ha HP. apply Hl, listed_select. eauto.
  - intros Ha. eexists. split; [done|].
    rewrite listed_select. intros (a & Hlook & HP). by eapply Ha.
Qed.

Lemma shows_query (P : attrs → Prop) `{!∀ a, Decision (P a)} p t k :
  shows (query p P) t k ↔ k.1 = p ∧ ∃ a, t !! k = Some a ∧ P a.
Proof.
  unfold shows, query. split.
  - intros (l & [= <-] & Hl). apply listed_select in Hl.
    destruct Hl as (a & Hlook & Hp & HP). eauto.
  - intros (Hp & a & Hlook & HP). eexists. split; [done|].
    apply listed_select. eauto.
Qed.

Lemma hides_query (P : attrs → Prop) `{!∀ a, Decision (P a)} p t k :
  hides (query p P) t k ↔ (k.1 = p → ∀ a, t !! k = Some a → ¬ P a).
Proof.
  unfold hides, query. split.
  - intros (l & [= <-] & Hl) Hp a Ha HP. apply Hl, listed_select. eauto.
  - intros Ha. eexists. split; [done|].
    rewrite listed_select. intros (a & Hlook & Hp & HP). by eapply Ha.
Qed.

(** A record that is absent, or present and not owned, is in no owned
    listing; an absent one is in no listing at all. *)
Lemma hides_owned t k :
  (∀ a, t !! k = Some a → ¬ is_owned a) →
  hides get_all_games_data t k ∧ ∀ q, hides (get_games_by_platform_data q) t k.
Proof.
  intros H. split; [by apply hides_scan|].
  intros q. apply hides_query. auto.
Qed.

Lemma hides_absent t k :
  t !! k = None →
  hides get_all_games_data t k ∧
  (∀ q, hides (get_games_by_platform_data q) t k) ∧
  hides get_wishlist_data t k.
Proof.
  intros Hnone.
  assert (∀ P : attrs → Prop, ∀ a, t !! k = Some a → ¬ P a) as Hno.
  { intros P a. by rewrite Hnone. }
  split; [|split].
  - apply hides_scan, Hno.
  - intros q. apply hides_query. intros _. apply Hno.
  - apply hides_scan, Hno.
Qed.

(** ** Validation *)

Lemma required_Some o s : required o = Some s ↔ o = Some s ∧ s ≠ "".
Proof.
  unfold required. destruct o as [s'|]; [|by split; [|intros []]].
  case_decide as Hs'; split.
  - done.
  - intros [[= ->] Hs]. done.
  - intros [= ->]. done.
  - intros [[= ->] _]. done.
Qed.

Lemma required_None o : required o = None ↔ o = None ∨ o = Some "".
Proof.
  unfold required. destruct o as [s'|]; [|by split; [left|]].
  case_decide as Hs'; split.
  - intros _. right. by rewrite Hs'.
  - done.
  - done.
  - intros [|[= ->]]; done.
Qed.

(** ** Generated identifiers *)

Lemma hex_field_length len n rest :
  String.length (hex_field len n rest) = len + String.length rest.
Proof. induction len as [|len IH]; simpl; [done|]. by rewrite IH. Qed.

Lemma str_uuid_length n : String.length (str_uuid n) = 36.
Proof.
  unfold str_uuid.
  repeat (rewrite hex_field_length; simpl String.length).
  reflexivity.
Qed.

Lemma str_uuid_nonempty n : str_uuid n ≠ "".
Proof. intros H. pose proof (str_uuid_length n) as Hlen. by rewrite H in Hlen. Qed.

(** ** The writers, one call at a time *)

Lemma add_game_valid e body p n t :
  body !! "platform" = Some p → p ≠ "" →
  body !! "game_name" = Some n → n ≠ "" →
  add_game e body t =
    (Returned (), <[(p, str_uuid (uuid4 e)) := created_fields "owned" e body n]> t).
Proof.
  intros Hp Hp' Hn Hn'. unfold add_game.
  rewrite (proj2 (required_Some _ p)), (proj2 (required_Some _ n)) by done.
  reflexivity.
Qed.

Lemma add_to_wishlist_valid e body p n t :
  body !! "platform" = Some p → p ≠ "" →
  body !! "game_name" = Some n → n ≠ "" →
  add_to_wishlist e body t =
    (Returned (), <[(p, str_uuid (uuid4 e)) := created_fields "wishlist" e body n]> t).
Proof.
  intros Hp Hp' Hn Hn'. unfold add_to_wishlist.
  rewrite (proj2 (required_Some _ p)), (proj2 (required_Some _ n)) by done.
  reflexivity.
Qed.

Lemma add_game_invalid e body t :
  required (body !! "platform") = None ∨ required (body !! "game_name") = None →
  add_game e body t =
    (Raised (ValueError "Missing required fields: platform, game_name"), t).
Proof.
  unfold add_game. intros [-> | ->]; [done|].
  by destruct (required (body !! "platform")).
Qed.

Lemma add_to_wishlist_invalid e body t :
  required (body !! "platform") = None ∨ required (body !! "game_name") = None →
  add_to_wishlist e body t =
    (Raised (ValueError "Missing required fields: platform, game_name"), t).
Proof.
  unfold add_to_wishlist. intros [-> | ->]; [done|].
  by destruct (required (body !! "platform")).
Qed.

Lemma delete_game_valid body p g t :
  body !! "platform" = Some p → p ≠ "" →
  body !! "game_id" = Some g → g ≠ "" →
  delete_game body t = (Returned (), delete (p, g) t).
Proof.
  intros Hp Hp' Hg Hg'. unfold delete_game.
  rewrite (proj2 (required_Some _ p)), (proj2 (required_Some _ g)) by done.
  reflexivity.
Qed.

Lemma delete_game_invalid body t :
  required (body !! "platform") = None ∨ required (body !! "game_id") = None →
  delete_game body t =
    (Raised (ValueError "Missing required fields: platform, game_id"), t).
Proof.
  unfold delete_game. intros [-> | ->]; [done|].
  by destruct (required (body !! "platform")).
Qed.

Lemma mark_as_purchased_valid body p g t :
  body !! "platform" = Some p → p ≠ "" →
  body !! "game_id" = Some g → g ≠ "" →
  mark_as_purchased body t =
    (Returned (),
     <[(p, g) := <["status" := AttrS "owned"]> (default ∅ (t !! (p, g)))]> t).
Proof.
  intros Hp Hp' Hg Hg'. unfold mark_as_purchased.
  rewrite (proj2 (required_Some _ p)), (proj2 (required_Some _ g)) by done.
  reflexivity.
Qed.

Lemma created_fields_status status e body n :
  created_fields status e body n !! "status" = Some (AttrS status).
Proof. reflexivity. Qed.

(** ** Records that later calls leave alone *)

(** A call that neither purchases [k] nor draws its game_id keeps the
    record under [k] as it is, or deletes it. *)
Lemma perform_frame c k t :
  leaves_alone k c →
  after (perform c) t !! k = t !! k ∨ after (perform c) t !! k = None.
Proof.
  intros [Hpurchase Hdraw]. destruct k as [p g].
  destruct c as [e body|e body|body|body|body]; simpl in *.
  - unfold add_game.
    destruct (required (body !! "platform")) as [p'|]; [|by left].
    destruct (required (body !! "game_name")) as [n|]; [|by left].
    left. unfold after, put_item, item_key; simpl.
    apply lookup_insert_ne. intros [= _ Hid]. by apply Hdraw.
  - unfold add_to_wishlist.
    destruct (required (body !! "platform")) as [p'|]; [|by left].
    destruct (required (body !! "game_name")) as [n|]; [|by left].
    left. unfold after, put_item, item_key; simpl.
    apply lookup_insert_ne. intros [= _ Hid]. by apply Hdraw.
  - unfold delete_game.
    destruct (required (body !! "platform")) as [p'|]; [|by left].
    destruct (required (body !! "game_id")) as [g'|]; [|by left].
    unfold after, delete_item; simpl.
    destruct (decide ((p', g') = (p, g))) as [->|Hne].
    + right. apply lookup_delete_eq.
    + left. by apply lookup_delete_ne.
  - unfold delete_from_wishlist.
    destruct (required (body !! "platform")) as [p'|]; [|by left].
    destruct (required (body !! "game_id")) as [g'|]; [|by left].
    unfold after, delete_item; simpl.
    destruct (decide ((p', g') = (p, g))) as [->|Hne].
    + right. apply lookup_delete_eq.
    + left. by apply lookup_delete_ne.
  - unfold mark_as_purchased.
    destruct (required (body !! "platform")) as [p'|] eqn:Hp'; [|by left].
    destruct (required (body !! "game_id")) as [g'|] eqn:Hg'; [|by left].
    left. unfold after, update_item_set; simpl.
    apply lookup_insert_ne. intros [= -> ->]. apply Hpurchase.
    apply required_Some in Hp', Hg'. by destruct Hp', Hg'.
Qed.

Lemma run_frame cs k t :
  Forall (leaves_alone k) cs →
  run cs t !! k = t !! k ∨ run cs t !! k = None.
Proof.
  intros Hcs. revert t.
  induction Hcs as [|c cs Hc _ IH]; intros t; [by left|].
  change (run (c :: cs) t) with (run cs (after (perform c) t)).
  destruct (IH (after (perform c) t)) as [-> | ->]; [|by right].
  by apply perform_frame.
Qed.

(** So a record that is not owned stays out of the owned listings, and an
    absent one stays out of every listing. *)
Lemma run_keeps_not_owned cs k t :
  Forall (leaves_alone k) cs →
  (∀ a, t !! k = Some a → ¬ is_owned a) →
  ∀ a, run cs t !! k = Some a → ¬ is_owned a.
Proof.
  intros Hcs Ht a. destruct (run_frame cs k t Hcs) as [-> | ->]; [apply Ht|done].
Qed.

Lemma run_keeps_absent cs k t :
  Forall (leaves_alone k) cs → t !! k = None → run cs t !! k = None.
Proof.
  intros Hcs Ht. by destruct (run_frame cs k t Hcs) as [-> | ->].
Qed.

(** ** Creating an owned game *)

(** Writing under a key replaces what was there: the listing afterwards is
    the new item and the old listing without the item of that key. *)
Lemma select_insert (Q : key * attrs → Prop) `{!∀ kv, Decision (Q kv)} t k a :
  Q (k, a) →
  select Q (<[k := a]> t)
  ≡ₚ to_item (k, a) :: filter (λ g, item_key g ≠ k) (select Q t).
Proof.
  intros HQ. rewrite <-(insert_delete_eq t).
  rewrite (select_insert_new Q (delete k t) k a) by (done || apply lookup_delete_eq).
  apply Permutation_skip, NoDup_Permutation.
  - apply NoDup_select.
  - apply NoDup_filter, NoDup_select.
  - intros g. split.
    + intros Hg. apply elem_of_select in Hg as [Hlook Hg].
      apply lookup_delete_Some in Hlook as [Hne Hlook].
      apply list_elem_of_filter. split; [by intros <-|].
      by apply elem_of_select.
    + intros Hg. apply list_elem_of_filter in Hg as [Hne Hg].
      apply elem_of_select in Hg as [Hlook Hg].
      apply elem_of_select. split; [|done].
      apply lookup_delete_Some. split; [by intros ->|done].
Qed.

(** C1, as the code has it. For a body with non-empty platform and
    game_name, [add_game] returns and the owned listing of that platform
    afterwards is the listing before, without the record that carried the
    generated identifier if there was one, plus exactly one record [g];
    [g] is under the platform, has status "owned", and its game_id is the
    generated identifier, which is not empty.  When no record of the
    platform carries that identifier yet, the listing afterwards is the
    listing before plus [g], and the game_id of [g] differs from every
    game_id listed before.  Nothing in [add_game] looks for the identifier
    in the table. *)
Theorem add_game_lists_new_record e body p n t :
  body !! "platform" = Some p → p ≠ "" →
  body !! "game_name" = Some n → n ≠ "" →
  ∃ t' before after_ g,
    add_game e body t = (Returned (), t') ∧
    get_games_by_platform_data p t = (Returned before, t) ∧
    get_games_by_platform_data p t' = (Returned after_, t') ∧
    platform g = p ∧
    fields g !! "status" = Some (AttrS "owned") ∧
    game_id g = str_uuid (uuid4 e) ∧
    game_id g ≠ "" ∧
    after_ ≡ₚ (g :: filter (λ g', item_key g' ≠ item_key g) before) ∧
    (t !! (p, str_uuid (uuid4 e)) = None →
       after_ ≡ₚ (g :: before) ∧
       (g ∉ before) ∧
       ∀ g', g' ∈ before → game_id g' ≠ game_id g).
Proof.
  intros Hp Hp' Hn Hn'.
  set (id := str_uuid (uuid4 e)) in *.
  eexists _, _, _, (Item p id (created_fields "owned" e body n)).
  split; [by apply add_game_valid|].
  split; [reflexivity|]. split; [reflexivity|].
  split; [done|]. split; [reflexivity|]. split; [done|].
  split; [apply str_uuid_nonempty|].
  assert (p = p ∧ is_owned (created_fields "owned" e body n)) as Hnew.
  { split; [done|]. right. reflexivity. }
  split.
  - apply (select_insert _ t (p, id)). exact Hnew.
  - intros Hnone. split; [|split].
    + apply (select_insert_new _ t (p, id)); [done|exact Hnew].
    + rewrite elem_of_select. intros [Hlook _].
      change (t !! (p, id) = Some (created_fields "owned" e body n)) in Hlook.
      congruence.
    + intros g' Hg' Hid. apply elem_of_select in Hg' as [Hlook [Hplat _]].
      simpl in Hid, Hplat.
      assert (item_key g' = (p, id)) as Hkey.
      { unfold item_key. by rewrite Hplat, Hid. }
      rewrite Hkey in Hlook. congruence.
Qed.

(** When the drawn identifier is already the game_id of a record of that
    platform, [put_item] replaces the record: the table does not grow. *)
Lemma add_game_overwrites e body p n a t :
  body !! "platform" = Some p → p ≠ "" →
  body !! "game_name" = Some n → n ≠ "" →
  t !! (p, str_uuid (uuid4 e)) = Some a →
  dom (after (add_game e body) t) = dom t.
Proof.
  intros Hp Hp' Hn Hn' Ha. unfold after.
  rewrite (add_game_valid e body p n) by done. simpl.
  apply dom_insert_lookup_L. eauto.
Qed.

(** ** Wishlist entries and their purchase *)

(** C2. A record created by [add_to_wishlist] is in the wishlist listing;
    through any later calls that neither mark its (platform, game_id) as
    purchased nor draw its identifier again it is in no owned listing, of
    all games or of any platform; once [mark_as_purchased] is called with
    its platform and game_id it is in the owned listings and not in the
    wishlist listing. *)
Theorem wishlist_hidden_until_purchased e body p n cs purchase t :
  body !! "platform" = Some p → p ≠ "" →
  body !! "game_name" = Some n → n ≠ "" →
  Forall (leaves_alone (p, str_uuid (uuid4 e))) cs →
  purchases (p, str_uuid (uuid4 e)) (MarkAsPurchased purchase) →
  ∃ t1 t3,
    add_to_wishlist e body t = (Returned (), t1) ∧
    shows get_wishlist_data t1 (p, str_uuid (uuid4 e)) ∧
    hides get_all_games_data (run cs t1) (p, str_uuid (uuid4 e)) ∧
    (∀ q, hides (get_games_by_platform_data q) (run cs t1)
            (p, str_uuid (uuid4 e))) ∧
    mark_as_purchased purchase (run cs t1) = (Returned (), t3) ∧
    shows get_all_games_data t3 (p, str_uuid (uuid4 e)) ∧
    shows (get_games_by_platform_data p) t3 (p, str_uuid (uuid4 e)) ∧
    hides get_wishlist_data t3 (p, str_uuid (uuid4 e)).
Proof.
  intros Hp Hp' Hn Hn' Hcs [Hpp Hpg]. simpl in Hpp, Hpg.
  set (k := (p, str_uuid (uuid4 e))) in *.
  set (w := created_fields "wishlist" e body n).
  eexists (<[k := w]> t), _.
  split; [by apply add_to_wishlist_valid|].
  assert (∀ a, <[k := w]> t !! k = Some a → ¬ is_owned a) as Hnot.
  { intros a. rewrite lookup_insert_eq. intros [= <-] [Hs|Hs]; discriminate Hs. }
  split; [|split; [|split; [|split; [|split; [|split]]]]].
  - apply shows_scan. exists w. split; [apply lookup_insert_eq|reflexivity].
  - by apply hides_owned, run_keeps_not_owned.
  - by apply hides_owned, run_keeps_not_owned.
  - apply (mark_as_purchased_valid purchase p (str_uuid (uuid4 e)));
      auto using str_uuid_nonempty.
  - apply shows_scan. eexists. split; [apply lookup_insert_eq|].
    right. apply lookup_insert_eq.
  - apply shows_query. split; [done|].
    eexists. split; [apply lookup_insert_eq|]. right. apply lookup_insert_eq.
  - apply hides_scan. intros a. rewrite lookup_insert_eq. intros [= <-].
    unfold is_wishlist. by rewrite lookup_insert_eq.
Qed.

(** ** Deletion *)

(** C4. For a platform and game_id that are both present and not empty,
    [delete_game] and [delete_from_wishlist] return, and the record under
    that key is in none of the three listings afterwards, also after any
    later calls that neither purchase that key nor draw that game_id; when
    the table has no record under the key, the table is left as it was. *)
Theorem delete_removes_record del body p g cs t :
  del ∈ [delete_game; delete_from_wishlist] →
  body !! "platform" = Some p → p ≠ "" →
  body !! "game_id" = Some g → g ≠ "" →
  Forall (leaves_alone (p, g)) cs →
  ∃ t',
    del body t = (Returned (), t') ∧
    hides get_all_games_data (run cs t') (p, g) ∧
    (∀ q, hides (get_games_by_platform_data q) (run cs t') (p, g)) ∧
    hides get_wishlist_data (run cs t') (p, g) ∧
    (t !! (p, g) = None → t' = t).
Proof.
  intros Hdel Hp Hp' Hg Hg' Hcs. exists (delete (p, g) t).
  assert (del body t = (Returned (), delete (p, g) t)) as ->.
  { apply list_elem_of_In in Hdel. destruct Hdel as [<-|[<-|[]]];
      by apply delete_game_valid. }
  split; [done|].
  pose proof (hides_absent (run cs (delete (p, g) t)) (p, g)) as Hhid.
  split; [|split; [|split]].
  - apply Hhid, run_keeps_absent; [done|apply lookup_delete_eq].
  - apply Hhid, run_keeps_absent; [done|apply lookup_delete_eq].
  - apply Hhid, run_keeps_absent; [done|apply lookup_delete_eq].
  - apply delete_id.
Qed.

(** C8. [delete_game] and [delete_from_wishlist] are the same function,
    and on every body and table both do what the delete of the
    specification does: raise the missing-fields error when platform or
    game_id is absent or empty, and delete by (platform, game_id)
    otherwise. *)
Theorem delete_game_is_delete_from_wishlist :
  delete_game = delete_from_wishlist ∧
  ∀ body t,
    delete_game body t = delete_by_key body t ∧
    delete_from_wishlist body t = delete_by_key body t.
Proof.
  split; [reflexivity|].
  assert (∀ body t, delete_game body t = delete_by_key body t) as H;
    [|by split; apply H].
  intros body t. unfold delete_game, delete_by_key, required.
  destruct (body !! "platform") as [p|]; [|done].
  destruct (body !! "game_id") as [g|].
  - destruct (decide (p = "")) as [->|Hp], (decide (g = "")) as [->|Hg].
    + rewrite decide_False; [done|]. by intros [? _].
    + rewrite decide_False; [done|]. by intros [? _].
    + rewrite decide_False; [done|]. by intros [_ ?].
    + by rewrite decide_True.
  - by destruct (decide (p = "")).
Qed.

(** ** Marking an absent key as purchased *)

(** C10. For a body with non-empty platform and game_id whose key is not
    in the table, [mark_as_purchased] returns and inserts under that key a
    record with status "owned" and no other attribute next to the key (no
    game_name, genre, year or added_date); the owned listings, of all
    games and of the platform, afterwards are the listings before plus
    that record. *)
Theorem mark_as_purchased_absent_key_creates_stub body p g t :
  body !! "platform" = Some p → p ≠ "" →
  body !! "game_id" = Some g → g ≠ "" →
  t !! (p, g) = None →
  ∃ t' a all_before all_after platform_before platform_after,
    mark_as_purchased body t = (Returned (), t') ∧
    t' = <[(p, g) := a]> t ∧
    a !! "status" = Some (AttrS "owned") ∧
    (∀ name, name ≠ "status" → a !! name = None) ∧
    get_all_games_data t = (Returned all_before, t) ∧
    get_all_games_data t' = (Returned all_after, t') ∧
    all_after ≡ₚ (Item p g a :: all_before) ∧
    get_games_by_platform_data p t = (Returned platform_before, t) ∧
    get_games_by_platform_data p t' = (Returned platform_after, t') ∧
    platform_after ≡ₚ (Item p g a :: platform_before).
Proof.
  intros Hp Hp' Hg Hg' Hnone.
  eexists _, {["status" := AttrS "owned"]}, _, _, _, _.
  split.
  { rewrite (mark_as_purchased_valid body p g) by done.
    rewrite Hnone. simpl. by rewrite insert_empty. }
  split; [reflexivity|].
  split; [apply lookup_singleton_eq|].
  split; [intros name Hname; by apply lookup_singleton_ne|].
  split; [reflexivity|]. split; [reflexivity|].
  split; [|split; [reflexivity|split; [reflexivity|]]].
  - apply (select_insert_new _ t (p, g)); [done|].
    right. apply lookup_singleton_eq.
  - apply (select_insert_new _ t (p, g)); [done|].
    split; [done|]. right. apply lookup_singleton_eq.
Qed.

(** ** Sorted, duplicate-free platform names *)

Lemma StronglySorted_strict_of_NoDup (l : list string) :
  StronglySorted String.le l → NoDup l → StronglySorted (strict String.le) l.
Proof.
  induction 1 as [|x l Hl IH Hx]; intros Hnd; [constructor|].
  apply NoDup_cons in Hnd as [Hnotin Hnd].
  constructor; [by apply IH|].
  apply Forall_forall. intros y Hy. split.
  - by apply (proj1 (Forall_forall _ _) Hx).
  - intros Hyx. apply Hnotin.
    assert (x = y) as ->; [|done].
    apply (anti_symm String.le); [|done].
    by apply (proj1 (Forall_forall _ _) Hx).
Qed.

(** [sorted(set(l))] is strictly ascending in the byte-wise lexicographic
    order (on UTF-8 text the order of code points, which is Python's) and
    has the elements of [l]. *)
Lemma sorted_set_spec (l : list string) :
  StronglySorted (strict String.le) (sorted_set l) ∧
  ∀ x, x ∈ sorted_set l ↔ x ∈ l.
Proof.
  unfold sorted_set. split.
  - apply StronglySorted_strict_of_NoDup.
    + apply (StronglySorted_merge_sort String.le).
    + rewrite merge_sort_Permutation. apply NoDup_elements.
  - intros x. rewrite merge_sort_Permutation, elem_of_elements.
    apply elem_of_list_to_set.
Qed.

Lemma sorted_set_perm (l1 l2 : list string) :
  l1 ≡ₚ l2 → sorted_set l1 = sorted_set l2.
Proof. intros H. unfold sorted_set. by rewrite H. Qed.

(** ** The handler *)

Section handler_facts.
Variable parse_qs : string → gmap string (string * list string).
Variable jinja_render : string → list (string * jvalue) → string.

Local Abbreviation lambda_handler := (lambda_handler parse_qs jinja_render).
Local Abbreviation dispatch := (dispatch parse_qs jinja_render).
Local Abbreviation form_body := (form_body parse_qs).
Local Abbreviation render_html := (render_html jinja_render).
Local Abbreviation error_page := (error_page jinja_render).

Lemma lambda_handler_routes e ev m p t :
  request_line ev = Returned (m, p) →
  lambda_handler e ev t =
    try_except (dispatch e ev m (routed_path p)) (λ ex, ret (error_page ex)) t.
Proof.
  intros Hline. unfold lambda_handler, bind, lift. by rewrite Hline.
Qed.

Lemma form_body_present ev raw t :
  ev_body ev = Some raw →
  form_body ev t = (Returned (fst <$> parse_qs raw), t).
Proof. intros Hraw. unfold form_body, bind, lift. by rewrite Hraw. Qed.

(** POST to "/add": the redirect when both fields pass the validation,
    the error page otherwise. *)
Lemma post_add_response e ev path raw t :
  request_line ev = Returned ("POST", path) →
  routed_path path = "/add" →
  ev_body ev = Some raw →
  lambda_handler e ev t =
    match required ((fst <$> parse_qs raw) !! "platform"),
          required ((fst <$> parse_qs raw) !! "game_name") with
    | Some p, Some _ =>
        (Returned (redirect_response ("/gc/" ++ p)),
         after (add_game e (fst <$> parse_qs raw)) t)
    | _, _ =>
        (Returned (error_page
           (ValueError "Missing required fields: platform, game_name")), t)
    end.
Proof.
  intros Hline Hpath Hraw.
  rewrite (lambda_handler_routes e ev "POST" path) by done.
  rewrite Hpath. unfold try_except, dispatch, bind; simpl.
  rewrite (form_body_present ev raw) by done.
  set (body := fst <$> parse_qs raw).
  destruct (required (body !! "platform")) as [p|] eqn:Hp.
  - destruct (required (body !! "game_name")) as [n|] eqn:Hn.
    + apply required_Some in Hp as [Hp Hp'], Hn as [Hn Hn'].
      unfold after. rewrite (add_game_valid e body p n) by done.
      rewrite Hp. simpl. by rewrite decide_False.
    + by rewrite add_game_invalid by auto.
  - by rewrite add_game_invalid by auto.
Qed.

(** POST to "/wishlist/add". *)
Lemma post_wishlist_add_response e ev path raw t :
  request_line ev = Returned ("POST", path) →
  routed_path path = "/wishlist/add" →
  ev_body ev = Some raw →
  lambda_handler e ev t =
    match required ((fst <$> parse_qs raw) !! "platform"),
          required ((fst <$> parse_qs raw) !! "game_name") with
    | Some _, Some _ =>
        (Returned (redirect_response "/gc/wishlist"),
         after (add_to_wishlist e (fst <$> parse_qs raw)) t)
    | _, _ =>
        (Returned (error_page
           (ValueError "Missing required fields: platform, game_name")), t)
    end.
Proof.
  intros Hline Hpath Hraw.
  rewrite (lambda_handler_routes e ev "POST" path) by done.
  rewrite Hpath. unfold try_except, dispatch, bind; simpl.
  rewrite (form_body_present ev raw) by done.
  set (body := fst <$> parse_qs raw).
  destruct (required (body !! "platform")) as [p|] eqn:Hp.
  - destruct (required (body !! "game_name")) as [n|] eqn:Hn.
    + apply required_Some in Hp as [Hp Hp'], Hn as [Hn Hn'].
      unfold after. by rewrite (add_to_wishlist_valid e body p n) by done.
    + by rewrite add_to_wishlist_invalid by auto.
  - by rewrite add_to_wishlist_invalid by auto.
Qed.

(** DELETE to "/delete" and to "/wishlist/delete". *)
Lemma delete_response e ev path raw t :
  request_line ev = Returned ("DELETE", path) →
  routed_path path = "/delete" ∨ routed_path path = "/wishlist/delete" →
  ev_body ev = Some raw →
  lambda_handler e ev t =
    match required ((fst <$> parse_qs raw) !! "platform"),
          required ((fst <$> parse_qs raw) !! "game_id") with
    | Some p, Some g =>
        (Returned (redirect_response
           (if decide (routed_path path = "/delete")
            then "/" ++ p else "/wishlist")),
         delete (p, g) t)
    | _, _ =>
        (Returned (error_page
           (ValueError "Missing required fields: platform, game_id")), t)
    end.
Proof.
  intros Hline Hpath Hraw.
  rewrite (lambda_handler_routes e ev "DELETE" path) by done.
  unfold try_except, dispatch, bind; simpl.
  rewrite (form_body_present ev raw) by done.
  set (body := fst <$> parse_qs raw).
  destruct Hpath as [-> | ->]; simpl.
  - destruct (required (body !! "platform")) as [p|] eqn:Hp.
    + destruct (required (body !! "game_id")) as [g|] eqn:Hg.
      * apply required_Some in Hp as [Hp Hp'], Hg as [Hg Hg'].
        rewrite (delete_game_valid body p g) by done.
        rewrite Hp. simpl. by rewrite decide_False.
      * by rewrite delete_game_invalid by auto.
    + by rewrite delete_game_invalid by auto.
  - destruct (required (body !! "platform")) as [p|] eqn:Hp.
    + destruct (required (body !! "game_id")) as [g|] eqn:Hg.
      * apply required_Some in Hp as [Hp Hp'], Hg as [Hg Hg'].
        change delete_from_wishlist with delete_game.
        by rewrite (delete_game_valid body p g) by done.
      * change delete_from_wishlist with delete_game.
        by rewrite delete_game_invalid by auto.
    + change delete_from_wishlist with delete_game.
      by rewrite delete_game_invalid by auto.
Qed.

(** C5, as the code has it. For a POST to "/add" whose body has
    non-empty platform and game_name the handler returns a 303 redirect
    whose Location is "/gc/<platform>"; when platform or game_name is
    absent or empty the validation raises and the handler returns the
    error page, statusCode 200, and no redirect to "/gc". *)
Theorem post_add_redirects_to_platform e ev path raw t :
  request_line ev = Returned ("POST", path) →
  routed_path path = "/add" →
  ev_body ev = Some raw →
  ∃ r t',
    lambda_handler e ev t = (Returned r, t') ∧
    match required ((fst <$> parse_qs raw) !! "platform"),
          required ((fst <$> parse_qs raw) !! "game_name") with
    | Some p, Some _ =>
        r = redirect_response ("/gc/" ++ p) ∧
        statusCode r = 303%Z ∧
        headers r = [("Location", "/gc/" ++ p)]
    | _, _ =>
        r = error_page
              (ValueError "Missing required fields: platform, game_name") ∧
        statusCode r = 200%Z ∧
        t' = t
    end.
Proof.
  intros Hline Hpath Hraw.
  rewrite (post_add_response e ev path raw) by done.
  destruct (required (_ !! "platform")) as [p|];
    [destruct (required (_ !! "game_name")) as [n|]|];
    eexists _, _; (split; [reflexivity|]); done.
Qed.

(** C3, as the code has it. For a POST to "/add" or "/wishlist/add"
    whose body lacks platform or game_name (absent or empty), the create
    operation raises the [ValueError] with the message "Missing required
    fields: platform, game_name", the table is unchanged, and the handler
    returns the error template rendered with status_code 500 and that
    message, in an envelope whose statusCode is 200. *)
Theorem create_without_required_fields e ev path raw t :
  request_line ev = Returned ("POST", path) →
  routed_path path = "/add" ∨ routed_path path = "/wishlist/add" →
  ev_body ev = Some raw →
  required ((fst <$> parse_qs raw) !! "platform") = None ∨
  required ((fst <$> parse_qs raw) !! "game_name") = None →
  (if decide (routed_path path = "/add")
   then add_game e (fst <$> parse_qs raw) t
   else add_to_wishlist e (fst <$> parse_qs raw) t) =
    (Raised (ValueError "Missing required fields: platform, game_name"), t) ∧
  ∃ r,
    lambda_handler e ev t = (Returned r, t) ∧
    r = render_html "error.html"
          [("status_code", JInt 500);
           ("message", JStr "Missing required fields: platform, game_name")] ∧
    statusCode r = 200%Z.
Proof.
  intros Hline Hpath Hraw Hmissing. split.
  - destruct Hpath as [-> | ->]; simpl.
    + by apply add_game_invalid.
    + by apply add_to_wishlist_invalid.
  - eexists. split; [|split; reflexivity].
    destruct Hpath as [Hpath|Hpath].
    + rewrite (post_add_response e ev path raw) by done.
      destruct Hmissing as [-> | ->]; [done|].
      by destruct (required (_ !! "platform")).
    + rewrite (post_wishlist_add_response e ev path raw) by done.
      destruct Hmissing as [-> | ->]; [done|].
      by destruct (required (_ !! "platform")).
Qed.

(** C6, as the code has it. For a DELETE to "/delete" whose body has
    non-empty platform and game_id the handler returns a 303 redirect
    whose Location is "/<platform>", without the "/gc" prefix; for a
    DELETE to "/wishlist/delete" with such a body the Location is
    "/wishlist"; when platform or game_id is absent or empty the
    validation raises and the handler returns the error page, statusCode
    200, and no redirect. *)
Theorem delete_redirects_without_prefix e ev path raw t :
  request_line ev = Returned ("DELETE", path) →
  routed_path path = "/delete" ∨ routed_path path = "/wishlist/delete" →
  ev_body ev = Some raw →
  ∃ r t',
    lambda_handler e ev t = (Returned r, t') ∧
    match required ((fst <$> parse_qs raw) !! "platform"),
          required ((fst <$> parse_qs raw) !! "game_id") with
    | Some p, Some g =>
        r = redirect_response
              (if decide (routed_path path = "/delete")
               then "/" ++ p else "/wishlist") ∧
        statusCode r = 303%Z ∧
        t' = delete (p, g) t
    | _, _ =>
        r = error_page
              (ValueError "Missing required fields: platform, game_id") ∧
        statusCode r = 200%Z ∧
        t' = t
    end.
Proof.
  intros Hline Hpath Hraw.
  rewrite (delete_response e ev path raw) by done.
  destruct (required (_ !! "platform")) as [p|];
    [destruct (required (_ !! "game_id")) as [g|]|];
    eexists _, _; (split; [reflexivity|]); done.
Qed.

(** C7. For a GET of "/", the handler renders the index template with
    the owned games, that is each record of the table whose status is
    absent or "owned", once, and with [platforms] strictly ascending and
    made of exactly the platform fields of those games; when the owned
    records of the table are one game on "SNES" and one on "PS5", both
    games are handed to the template and [platforms] is ["PS5"; "SNES"]. *)
Theorem get_root_platforms e ev path t :
  request_line ev = Returned ("GET", path) →
  routed_path path = "/" →
  ∃ games platforms,
    get_all_games_data t = (Returned games, t) ∧
    lambda_handler e ev t =
      (Returned (render_html "index.html"
                   [("games", JItems games); ("platforms", JStrs platforms)]),
       t) ∧
    NoDup games ∧
    (∀ g, g ∈ games ↔
          t !! item_key g = Some (fields g) ∧ is_owned (fields g)) ∧
    StronglySorted (strict String.le) platforms ∧
    (∀ q, q ∈ platforms ↔ ∃ g, g ∈ games ∧ platform g = q) ∧
    (∀ i1 a1 i2 a2,
       t !! ("SNES", i1) = Some a1 → is_owned a1 →
       t !! ("PS5", i2) = Some a2 → is_owned a2 →
       (∀ k a, t !! k = Some a → is_owned a →
               k = ("SNES", i1) ∨ k = ("PS5", i2)) →
       games ≡ₚ [Item "SNES" i1 a1; Item "PS5" i2 a2] ∧
       platforms = ["PS5"; "SNES"]).
Proof.
  intros Hline Hpath.
  eexists _, _. split; [reflexivity|]. split.
  { rewrite (lambda_handler_routes e ev "GET" path) by done.
    rewrite Hpath. reflexivity. }
  split; [apply NoDup_select|].
  split; [intros g; apply elem_of_select|].
  split; [apply sorted_set_spec|]. split.
  - intros q. rewrite (proj2 (sorted_set_spec _)), list_elem_of_fmap.
    split; intros (g & ? & ?); eauto.
  - intros i1 a1 i2 a2 H1 Ho1 H2 Ho2 Honly.
    assert (select (λ kv, is_owned kv.2) t
            ≡ₚ [Item "SNES" i1 a1; Item "PS5" i2 a2]) as Hperm.
    { apply NoDup_Permutation.
      - apply NoDup_select.
      - apply NoDup_cons. split; [|apply NoDup_singleton].
        intros Hin. apply list_elem_of_singleton in Hin. discriminate Hin.
      - intros [p i a]. rewrite elem_of_select. simpl. split.
        + intros [Hlook Ho].
          change (t !! (p, i) = Some a) in Hlook. change (is_owned a) in Ho.
          destruct (Honly (p, i) a Hlook Ho) as [[= -> ->]|[= -> ->]].
          * assert (a = a1) as -> by congruence. apply list_elem_of_here.
          * assert (a = a2) as -> by congruence.
            apply list_elem_of_further, list_elem_of_here.
        + intros Hin. apply elem_of_cons in Hin as [[= -> -> ->]|Hin].
          * done.
          * apply list_elem_of_singleton in Hin as [= -> -> ->]. done. }
    split; [exact Hperm|].
    rewrite (sorted_set_perm _ ["SNES"; "PS5"]); [by vm_compute|].
    by rewrite Hperm.
Qed.

(** What the [try] block returns is a page or a redirect. *)
Lemma dispatch_envelope e ev m p t r t' :
  dispatch e ev m p t = (Returned r, t') →
  statusCode r = 200%Z ∨ statusCode r = 303%Z.
Proof.
  unfold dispatch, bind, ret, not_found, form_body, lift, bind,
    get_all_games_data, get_wishlist_data, get_games_by_platform_data,
    scan, query.
  repeat case_decide;
    repeat match goal with
           | |- context [match ?x with _ => _ end] => destruct x
           end;
    intros [= <- <-]; simpl; auto.
Qed.

(** C9. A response returned by the handler has statusCode 200 or 303.
    [render_html] sets 200 whatever the template and its arguments: the
    "Not found" page of an unknown method and the error page of a caught
    exception come with statusCode 200, the 404 and the 500 being
    arguments of the template. *)
Theorem handler_envelope_status e ev t r t' :
  lambda_handler e ev t = (Returned r, t') →
  (statusCode r = 200%Z ∨ statusCode r = 303%Z) ∧
  (∀ template_name kwargs,
     statusCode (render_html template_name kwargs) = 200%Z) ∧
  (∀ m p, request_line ev = Returned (m, p) →
     m ∉ ["GET"; "POST"; "DELETE"] →
     r = render_html "error.html"
           [("status_code", JInt 404); ("message", JStr "Not found")] ∧
     statusCode r = 200%Z) ∧
  (∀ m p ex t1, request_line ev = Returned (m, p) →
     dispatch e ev m (routed_path p) t = (Raised ex, t1) →
     r = render_html "error.html"
           [("status_code", JInt 500); ("message", JStr (str_exn ex))] ∧
     statusCode r = 200%Z).
Proof.
  intros Hret.
  destruct (request_line ev) as [[m p]|ex] eqn:Hline.
  2: { unfold lambda_handler, bind, lift in Hret. by rewrite Hline in Hret. }
  rewrite (lambda_handler_routes e ev m p) in Hret by done.
  unfold try_except in Hret.
  split; [|split; [done|split]].
  - destruct (dispatch e ev m (routed_path p) t) as [[r0|ex] t0] eqn:Hd.
    + injection Hret as <- <-. by eapply dispatch_envelope.
    + injection Hret as <- <-. by left.
  - intros m' p' [= <- <-] Hm.
    rewrite !not_elem_of_cons in Hm. destruct Hm as (? & ? & ? & _).
    unfold dispatch in Hret. rewrite !decide_False in Hret by done.
    by injection Hret as <- <-.
  - intros m' p' ex t1 [= <- <-] Hd. rewrite Hd in Hret.
    by injection Hret as <- <-.
Qed.

End handler_facts.

(** ** The statements at sample inputs *)

Lemma add_game_lists_new_record_witness :
  ∃ t' g,
    add_game env1 snes_zelda (after (add_game env0 snes_zelda) ∅)
    = (Returned (), t') ∧
    game_id g = "fedcba98-7654-4210-bedc-ba9876543210" ∧
    fields g !! "status" = Some (AttrS "owned").
Proof.
  destruct (add_game_lists_new_record env1 snes_zelda "SNES" "Zelda"
              (after (add_game env0 snes_zelda) ∅))
    as (t' & _ & _ & g & Ht' & _ & _ & _ & Hstatus & Hid & _);
    [reflexivity|discriminate|reflexivity|discriminate|].
  exists t', g. split; [exact Ht'|]. split; [exact Hid|exact Hstatus].
Defined.

Lemma wishlist_hidden_until_purchased_witness :
  ∃ t3,
    shows get_all_games_data t3 ("SNES", str_uuid (uuid4 env0)) ∧
    hides get_wishlist_data t3 ("SNES", str_uuid (uuid4 env0)).
Proof.
  destruct (wishlist_hidden_until_purchased env0 snes_zelda "SNES" "Zelda"
              [AddGame env1 snes_zelda;
               DeleteGame (form_of "platform=SNES&game_id=abc");
               MarkAsPurchased (form_of "platform=PS5&game_id=abc")]
              (form_of "platform=SNES&game_id=01234567-89ab-4def-8123-456789abcdef")
              two_platforms)
    as (t1 & t3 & _ & _ & _ & _ & _ & Howned & _ & Hwish).
  - reflexivity.
  - discriminate.
  - reflexivity.
  - discriminate.
  - repeat constructor; simpl; try tauto.
    + vm_compute. discriminate.
    + intros [H _]. vm_compute in H. discriminate.
  - split; reflexivity.
  - by exists t3.
Defined.

Lemma delete_removes_record_witness :
  ∃ t',
    delete_from_wishlist (form_of "platform=SNES&game_id=abc") two_platforms
    = (Returned (), t') ∧ t' = two_platforms.
Proof.
  destruct (delete_removes_record delete_from_wishlist
              (form_of "platform=SNES&game_id=abc") "SNES" "abc"
              [AddGame env0 snes_zelda] two_platforms)
    as (t' & Hdel & _ & _ & _ & Hsame).
  - apply list_elem_of_further, list_elem_of_here.
  - reflexivity.
  - discriminate.
  - reflexivity.
  - discriminate.
  - repeat constructor; simpl; try tauto. vm_compute. discriminate.
  - exists t'. split; [exact Hdel|]. apply Hsame. by vm_compute.
Defined.

Lemma mark_as_purchased_absent_key_creates_stub_witness :
  ∃ t', mark_as_purchased (form_of "platform=SNES&game_id=abc") two_platforms
        = (Returned (), t') ∧
        t' !! ("SNES", "abc") = Some {["status" := AttrS "owned"]}.
Proof.
  destruct (mark_as_purchased_absent_key_creates_stub
              (form_of "platform=SNES&game_id=abc") "SNES" "abc" two_platforms)
    as (t' & a & _ & _ & _ & _ & Hmark & -> & Hstatus & Honly & _).
  - reflexivity.
  - discriminate.
  - reflexivity.
  - discriminate.
  - by vm_compute.
  - eexists. split; [exact Hmark|]. rewrite lookup_insert_eq. f_equal.
    apply map_eq. intros name. destruct (decide (name = "status")) as [->|Hne].
    + by rewrite Hstatus, lookup_singleton_eq.
    + by rewrite Honly, lookup_singleton_ne.
Defined.

Lemma post_add_redirects_to_platform_witness :
  ∃ t',
    lambda_handler parse_qs_unescaped plain_render env0
      (url_event "POST" "/gc/add" (Some "platform=SNES&game_name=Zelda")) ∅
    = (Returned (redirect_response "/gc/SNES"), t').
Proof.
  destruct (post_add_redirects_to_platform parse_qs_unescaped plain_render env0
              (url_event "POST" "/gc/add" (Some "platform=SNES&game_name=Zelda"))
              "/gc/add" "platform=SNES&game_name=Zelda" ∅)
    as (r & t' & Hrun & Hr); [reflexivity..|].
  change (r = redirect_response "/gc/SNES" ∧ statusCode r = 303%Z ∧
          headers r = [("Location", "/gc/SNES")]) in Hr.
  destruct Hr as [-> _]. by exists t'.
Defined.

Lemma create_without_required_fields_witness :
  ∃ r,
    lambda_handler parse_qs_unescaped plain_render env0
      (proxy_event "POST" "/gc/wishlist/add" (Some "platform=SNES&game_name=")) ∅
    = (Returned r, ∅) ∧ statusCode r = 200%Z.
Proof.
  destruct (create_without_required_fields parse_qs_unescaped plain_render env0
              (proxy_event "POST" "/gc/wishlist/add" (Some "platform=SNES&game_name="))
              "/gc/wishlist/add" "platform=SNES&game_name=" ∅)
    as (_ & r & Hrun & _ & Hstatus).
  - reflexivity.
  - right. reflexivity.
  - reflexivity.
  - right. reflexivity.
  - by exists r.
Defined.

Lemma delete_redirects_without_prefix_witness :
  ∃ t',
    lambda_handler parse_qs_unescaped plain_render env0
      (url_event "DELETE" "/gc/delete" (Some "platform=SNES&game_id=abc"))
      two_platforms
    = (Returned (redirect_response "/SNES"), t').
Proof.
  destruct (delete_redirects_without_prefix parse_qs_unescaped plain_render env0
              (url_event "DELETE" "/gc/delete" (Some "platform=SNES&game_id=abc"))
              "/gc/delete" "platform=SNES&game_id=abc" two_platforms)
    as (r & t' & Hrun & Hr); [reflexivity|by left|reflexivity|].
  change (r = redirect_response "/SNES" ∧ statusCode r = 303%Z ∧
          t' = delete ("SNES", "abc") two_platforms) in Hr.
  destruct Hr as [-> _]. by exists t'.
Defined.

(** The sample table, written out. *)
Lemma two_platforms_inserts :
  two_platforms =
    <[("PS5", str_uuid (uuid4 env1)) := created_fields "owned" env1 ps5_astro "Astro"]>
      (<[("SNES", str_uuid (uuid4 env0)) :=
           created_fields "owned" env0 snes_zelda "Zelda"]> ∅).
Proof.
  unfold two_platforms, run. cbn [foldl perform]. unfold after.
  rewrite (add_game_valid env0 snes_zelda "SNES" "Zelda")
    by (reflexivity || discriminate).
  cbn [snd].
  rewrite (add_game_valid env1 ps5_astro "PS5" "Astro")
    by (reflexivity || discriminate).
  reflexivity.
Qed.

Lemma get_root_platforms_witness :
  ∃ games,
    lambda_handler parse_qs_unescaped plain_render env0
      (url_event "GET" "/gc" None) two_platforms
    = (Returned (render_html plain_render "index.html"
                   [("games", JItems games);
                    ("platforms", JStrs ["PS5"; "SNES"])]),
       two_platforms) ∧
    games ≡ₚ [Item "SNES" (str_uuid (uuid4 env0))
                (created_fields "owned" env0 snes_zelda "Zelda");
              Item "PS5" (str_uuid (uuid4 env1))
                (created_fields "owned" env1 ps5_astro "Astro")].
Proof.
  destruct (get_root_platforms parse_qs_unescaped plain_render env0
              (url_event "GET" "/gc" None) "/gc" two_platforms)
    as (games & platforms & _ & Hrun & _ & _ & _ & _ & Htwo); [reflexivity..|].
  destruct (Htwo (str_uuid (uuid4 env0))
                 (created_fields "owned" env0 snes_zelda "Zelda")
                 (str_uuid (uuid4 env1))
                 (created_fields "owned" env1 ps5_astro "Astro"))
    as [Hgames Hplatforms].
  - rewrite two_platforms_inserts.
    rewrite lookup_insert_ne by discriminate. apply lookup_insert_eq.
  - right. reflexivity.
  - rewrite two_platforms_inserts. apply lookup_insert_eq.
  - right. reflexivity.
  - intros k a. rewrite two_platforms_inserts.
    rewrite !lookup_insert_Some, lookup_empty.
    intros [[<- _]|[_ [[<- _]|[_ Hnone]]]] _; [by right|by left|discriminate Hnone].
  - exists games. split; [|exact Hgames]. rewrite Hrun, Hplatforms. reflexivity.
Defined.

Lemma handler_envelope_status_witness :
  ∃ r,
    lambda_handler parse_qs_unescaped plain_render env0
      (proxy_event "PUT" "/gc/SNES" None) two_platforms
    = (Returned r, two_platforms) ∧
    (statusCode r = 200%Z ∨ statusCode r = 303%Z).
Proof.
  assert (lambda_handler parse_qs_unescaped plain_render env0
            (proxy_event "PUT" "/gc/SNES" None) two_platforms
          = (Returned (render_html plain_render "error.html"
                         [("status_code", JInt 404);
                          ("message", JStr "Not found")]),
             two_platforms)) as Hrun by reflexivity.
  eexists. split; [exact Hrun|].
  exact (proj1 (handler_envelope_status parse_qs_unescaped plain_render env0
                  (proxy_event "PUT" "/gc/SNES" None) two_platforms _ _ Hrun)).
Defined.

(** GET of "/" on the table with one owned game on "SNES" and one on
    "PS5": both games are listed and the platforms are "PS5", "SNES". *)
Example get_root_two_platforms :
  (lambda_handler parse_qs_unescaped plain_render env0
     (url_event "GET" "/gc" None) two_platforms).1
  = Returned {| statusCode := 200;
                headers := [("Content-Type", "text/html; charset=utf-8")];
                body := "index.html games=2 platforms=PS5,SNES" |}.
Proof. by vm_compute. Qed.

(** An unknown method gets the "Not found" page, a missing body the error
    page: both with statusCode 200. *)
Example unknown_method_page :
  (lambda_handler parse_qs_unescaped plain_render env0
     (proxy_event "PUT" "/gc/SNES" None) two_platforms).1
  = Returned {| statusCode := 200;
                headers := [("Content-Type", "text/html; charset=utf-8")];
                body := "error.html status_code=404 message=Not found" |}.
Proof. by vm_compute. Qed.

Example missing_body_page :
  (lambda_handler parse_qs_unescaped plain_render env0
     (proxy_event "POST" "/gc/add" None) two_platforms).1
  = Returned {| statusCode := 200;
                headers := [("Content-Type", "text/html; charset=utf-8")];
                body := "error.html status_code=500 message='body'" |}.
Proof. by vm_compute. Qed.

(** ** Inputs on which the stated behaviour is not the behaviour of the code *)

(** C1: when [uuid4] draws the identifier of a record of the platform
    again, the listing afterwards is not the listing before plus one
    record. *)
Lemma add_game_same_id_not_one_more :
  ¬ ∃ t' before after_ g,
      add_game env0 snes_zelda (after (add_game env0 snes_zelda) ∅)
      = (Returned (), t') ∧
      get_games_by_platform_data "SNES" (after (add_game env0 snes_zelda) ∅)
      = (Returned before, after (add_game env0 snes_zelda) ∅) ∧
      get_games_by_platform_data "SNES" t' = (Returned after_, t') ∧
      after_ ≡ₚ (g :: before).
Proof.
  intros (t' & before & after_ & g & Hadd & Hbefore & Hafter & Hperm).
  apply (f_equal snd) in Hadd. cbn [snd] in Hadd. subst t'.
  pose proof (f_equal (λ x : outcome (list item) * table,
                match x.1 with Returned l => length l | Raised _ => 0 end)
                Hbefore) as Hb.
  pose proof (f_equal (λ x : outcome (list item) * table,
                match x.1 with Returned l => length l | Raised _ => 0 end)
                Hafter) as Ha.
  vm_compute in Hb. change (1 = length before) in Hb.
  vm_compute in Ha. change (1 = length after_) in Ha.
  apply Permutation_length in Hperm. cbn [length] in Hperm.
  rewrite <-Ha, <-Hb in Hperm. discriminate Hperm.
Qed.

(** C3: the response to a create request without game_name does not have
    statusCode 500. *)
Lemma create_without_required_fields_not_500 :
  ¬ ∃ r t',
      lambda_handler parse_qs_unescaped plain_render env0
        (url_event "POST" "/gc/add" (Some "platform=SNES")) ∅
      = (Returned r, t') ∧ statusCode r = 500%Z.
Proof.
  intros (r & t' & Hrun & Hstatus).
  apply (f_equal fst) in Hrun. vm_compute in Hrun.
  injection Hrun as <-. discriminate Hstatus.
Qed.

(** C5: a POST to "/add" without platform is not answered by a redirect
    to "/gc". *)
Lemma post_add_without_platform_no_redirect :
  ¬ ∃ t',
      lambda_handler parse_qs_unescaped plain_render env0
        (url_event "POST" "/gc/add" (Some "game_name=Zelda")) ∅
      = (Returned (redirect_response "/gc"), t').
Proof.
  intros (t' & Hrun). apply (f_equal fst) in Hrun.
  vm_compute in Hrun. discriminate Hrun.
Qed.

(** C6: a DELETE to "/delete" without platform is not answered by a
    redirect to "/". *)
Lemma delete_without_platform_no_redirect :
  ¬ ∃ t',
      lambda_handler parse_qs_unescaped plain_render env0
        (url_event "DELETE" "/delete" (Some "game_id=abc")) two_platforms
      = (Returned (redirect_response "/"), t').
Proof.
  intros (t' & Hrun). apply (f_equal fst) in Hrun.
  vm_compute in Hrun. discriminate Hrun.
Qed.

(** * Further properties of the writers and the listings *)

(** ** One write call *)

Lemma perform_raised c t ex t' :
  perform c t = (Raised ex, t') →
  t' = t ∧
  (ex = ValueError "Missing required fields: platform, game_name" ∨
   ex = ValueError "Missing required fields: platform, game_id").
Proof.
  destruct c as [e body|e body|body|body|body]; simpl;
    [unfold add_game|unfold add_to_wishlist|unfold delete_game
    |unfold delete_from_wishlist|unfold mark_as_purchased];
    destruct (required (body !! "platform")) as [p|];
    try destruct (required (body !! _)) as [n|];
    intros [= <- <-]; auto.
Qed.

Lemma perform_returned_or_raised c t :
  (∃ t', perform c t = (Returned (), t')) ∨ (∃ ex, perform c t = (Raised ex, t)).
Proof.
  destruct (perform c t) as [[[]|ex] t'] eqn:Hc; [left; eauto|].
  right. apply perform_raised in Hc as Hc'. destruct Hc' as [-> _]. eauto.
Qed.

(** A call touches at most one key: there is a key such that every other
    key holds afterwards what it held before. *)
Lemma perform_frame_key c t :
  ∃ k, ∀ k', k' ≠ k → after (perform c) t !! k' = t !! k'.
Proof.
  destruct c as [e body|e body|body|body|body]; simpl;
    [unfold add_game|unfold add_to_wishlist|unfold delete_game
    |unfold delete_from_wishlist|unfold mark_as_purchased];
    destruct (required (body !! "platform")) as [p|];
    try destruct (required (body !! _)) as [n|];
    try (by exists ("", ""));
    eexists (p, _); intros k' Hk'; unfold after; simpl;
    first [by apply lookup_insert_ne | by apply lookup_delete_ne].
Qed.

(** ** Purchase of an existing record *)

(** X2. On a record that exists, [mark_as_purchased] sets the status to
    "owned" and keeps every other attribute; no other key changes; and
    marking the same record a second time changes nothing. *)
Theorem mark_as_purchased_keeps_attributes body p g a t :
  body !! "platform" = Some p → p ≠ "" →
  body !! "game_id" = Some g → g ≠ "" →
  t !! (p, g) = Some a →
  ∃ t' a',
    mark_as_purchased body t = (Returned (), t') ∧
    t' !! (p, g) = Some a' ∧
    a' !! "status" = Some (AttrS "owned") ∧
    (∀ name, name ≠ "status" → a' !! name = a !! name) ∧
    (∀ k, k ≠ (p, g) → t' !! k = t !! k) ∧
    mark_as_purchased body t' = (Returned (), t').
Proof.
  intros Hp Hp' Hg Hg' Ha.
  exists (<[(p, g) := <["status" := AttrS "owned"]> a]> t),
         (<["status" := AttrS "owned"]> a).
  split.
  { rewrite (mark_as_purchased_valid body p g) by done. by rewrite Ha. }
  split; [apply lookup_insert_eq|].
  split; [apply lookup_insert_eq|].
  split; [intros name Hname; by apply lookup_insert_ne|].
  split; [intros k Hk; by apply lookup_insert_ne|].
  rewrite (mark_as_purchased_valid body p g) by done.
  rewrite lookup_insert_eq. simpl.
  by rewrite !insert_insert_eq.
Qed.

(** ** Create and delete *)

(** X3. Deleting the record that [add_game] or [add_to_wishlist] has just
    created, under a key that was free, gives back the table as it was. *)
Theorem add_then_delete_restores e body del p n t :
  body !! "platform" = Some p → p ≠ "" →
  body !! "game_name" = Some n → n ≠ "" →
  del !! "platform" = Some p →
  del !! "game_id" = Some (str_uuid (uuid4 e)) →
  t !! (p, str_uuid (uuid4 e)) = None →
  after (delete_game del) (after (add_game e body) t) = t ∧
  after (delete_from_wishlist del) (after (add_to_wishlist e body) t) = t.
Proof.
  intros Hp Hp' Hn Hn' Hdp Hdg Hnone.
  pose proof (str_uuid_nonempty (uuid4 e)) as Hid.
  change delete_from_wishlist with delete_game. unfold after.
  rewrite (add_game_valid e body p n), (add_to_wishlist_valid e body p n) by done.
  rewrite !(delete_game_valid del p (str_uuid (uuid4 e))) by done. simpl.
  by rewrite !delete_insert_id.
Qed.

(** X4. Deleting is idempotent, whatever the body: a second call with the
    same body leaves the table of the first. *)
Theorem delete_twice body t :
  after (delete_game body) (after (delete_game body) t)
  = after (delete_game body) t.
Proof.
  unfold after, delete_game.
  destruct (required (body !! "platform")) as [p|]; [|done].
  destruct (required (body !! "game_id")) as [g|]; [|done].
  simpl. apply delete_id, lookup_delete_eq.
Qed.

(** ** The three listings *)

(** X5. No record is in the owned listing and in the wishlist listing of
    the same table. *)
Theorem owned_wishlist_disjoint t k :
  ¬ (shows get_all_games_data t k ∧ shows get_wishlist_data t k).
Proof.
  intros [Ho Hw]. apply shows_scan in Ho as (a & Ha & Howned).
  apply shows_scan in Hw as (a' & Ha' & Hwish).
  assert (a' = a) as -> by congruence.
  unfold is_wishlist in Hwish. destruct Howned as [Hs|Hs]; congruence.
Qed.

(** X6. The owned listing of a platform is the owned listing of all games
    cut down to that platform, and neither lists an item twice. *)
Theorem platform_listing_is_slice p t :
  ∃ all_games platform_games,
    get_all_games_data t = (Returned all_games, t) ∧
    get_games_by_platform_data p t = (Returned platform_games, t) ∧
    platform_games ≡ₚ filter (λ g, platform g = p) all_games ∧
    NoDup (item_key <$> all_games).
Proof.
  eexists _, _. split; [reflexivity|]. split; [reflexivity|]. split.
  - apply NoDup_Permutation.
    + apply NoDup_select.
    + apply NoDup_filter, NoDup_select.
    + intros g. rewrite list_elem_of_filter, !elem_of_select. simpl.
      split; [intros (? & ? & ?)|intros (? & ? & ?)]; auto.
  - unfold select. rewrite <-list_fmap_compose.
    apply (NoDup_fmap_2_strong (item_key ∘ to_item)).
    + intros [[p1 g1] a1] [[p2 g2] a2] H1 H2 [= -> ->].
      apply elem_of_map_to_list in H1, H2. congruence.
    + apply NoDup_map_to_list.
Qed.

(** ** Statuses along a sequence of calls *)

Lemma perform_keeps_statuses_known c t :
  statuses_known t → statuses_known (after (perform c) t).
Proof.
  intros Ht.
  assert (∀ k (b : attrs), known_status b →
            statuses_known (<[k := b]> t)) as Hins.
  { intros k b Hb k' a'. rewrite lookup_insert_Some.
    intros [[_ <-]|[_ Ha']]; [done|by eapply Ht]. }
  assert (∀ k, statuses_known (delete k t)) as Hdel.
  { intros k k' a'. rewrite lookup_delete_Some. intros [_ Ha']. by eapply Ht. }
  destruct c as [e body|e body|body|body|body]; simpl;
    [unfold add_game|unfold add_to_wishlist|unfold delete_game
    |unfold delete_from_wishlist|unfold mark_as_purchased];
    destruct (required (body !! "platform")) as [p|]; try done;
    destruct (required (body !! _)) as [n|]; try done;
    unfold after; simpl.
  - apply Hins. left. by right.
  - apply Hins. by right.
  - apply Hdel.
  - apply Hdel.
  - apply Hins. left. right. apply lookup_insert_eq.
Qed.

Lemma run_keeps_statuses_known cs t :
  statuses_known t → statuses_known (run cs t).
Proof.
  revert t. induction cs as [|c cs IH]; intros t Ht; [done|].
  apply IH. by apply perform_keeps_statuses_known.
Qed.

(** X7. Starting from a table whose records all have a known status
    (absent, "owned" or "wishlist"), after any sequence of write calls
    every record of the table is in exactly one of the owned listing and
    the wishlist listing. *)
Theorem every_record_in_one_listing cs t k :
  statuses_known t →
  is_Some (run cs t !! k) →
  (shows get_all_games_data (run cs t) k ∧ hides get_wishlist_data (run cs t) k) ∨
  (shows get_wishlist_data (run cs t) k ∧ hides get_all_games_data (run cs t) k).
Proof.
  intros Ht [a Ha].
  destruct (run_keeps_statuses_known cs t Ht k a Ha) as [Ho|Hw].
  - left. split; [apply shows_scan; eauto|].
    apply hides_scan. intros a' Ha' Hw. assert (a' = a) as -> by congruence.
    unfold is_wishlist in Hw. destruct Ho as [Hs|Hs]; congruence.
  - right. split; [apply shows_scan; eauto|].
    apply hides_scan. intros a' Ha' Ho. assert (a' = a) as -> by congruence.
    unfold is_wishlist in Hw. destruct Ho as [Hs|Hs]; congruence.
Qed.

Lemma perform_keeps_owned c k t :
  ¬ generates k.2 c →
  (∀ a, t !! k = Some a → is_owned a) →
  ∀ a, after (perform c) t !! k = Some a → is_owned a.
Proof.
  intros Hdraw Ht. destruct k as [p g].
  destruct c as [e body|e body|body|body|body]; simpl in *;
    [unfold add_game|unfold add_to_wishlist|unfold delete_game
    |unfold delete_from_wishlist|unfold mark_as_purchased];
    destruct (required (body !! "platform")) as [p'|]; try done;
    destruct (required (body !! _)) as [n|]; try done;
    unfold after; simpl; intros a.
  - rewrite lookup_insert_ne; [apply Ht|]. intros [= _ Hid]. by apply Hdraw.
  - rewrite lookup_insert_ne; [apply Ht|]. intros [= _ Hid]. by apply Hdraw.
  - rewrite lookup_delete_Some. intros [_ Ha]. by apply Ht.
  - rewrite lookup_delete_Some. intros [_ Ha]. by apply Ht.
  - rewrite lookup_insert_Some. intros [[_ <-]|[_ Ha]]; [|by apply Ht].
    right. apply lookup_insert_eq.
Qed.

(** X8. There is no way back to the wishlist: when the record under a key
    is owned, or the key is free, the key is not in the wishlist listing
    after any sequence of write calls, unless a create call draws the
    game_id of the key again. *)
Theorem owned_never_back_on_wishlist cs k t :
  Forall (λ c, ¬ generates k.2 c) cs →
  (∀ a, t !! k = Some a → is_owned a) →
  hides get_wishlist_data (run cs t) k.
Proof.
  intros Hcs Ht. apply hides_scan.
  assert (∀ a, run cs t !! k = Some a → is_owned a) as Hrun.
  { revert t Ht. induction Hcs as [|c cs Hc _ IH]; intros t Ht; [done|].
    apply IH. by apply perform_keeps_owned. }
  intros a Ha Hw. apply Hrun in Ha.
  unfold is_wishlist in Hw. destruct Ha as [Hs|Hs]; congruence.
Qed.

(** ** At sample inputs *)

Lemma mark_as_purchased_keeps_attributes_witness :
  ∃ (t' : table) (a' : attrs),
    t' !! ("SNES", str_uuid (uuid4 env0)) = Some a' ∧
    a' !! "game_name" = Some (AttrS "Zelda").
Proof.
  destruct (mark_as_purchased_keeps_attributes
              (form_of "platform=SNES&game_id=01234567-89ab-4def-8123-456789abcdef")
              "SNES" "01234567-89ab-4def-8123-456789abcdef"
              (created_fields "wishlist" env0 snes_zelda "Zelda")
              (after (add_to_wishlist env0 snes_zelda) ∅))
    as (t' & a' & _ & Ha' & _ & Hkeep & _).
  - reflexivity.
  - discriminate.
  - reflexivity.
  - discriminate.
  - apply lookup_insert_eq.
  - exists t', a'. split; [exact Ha'|]. by rewrite Hkeep.
Defined.

Lemma add_then_delete_restores_witness :
  after (delete_game
           (form_of "platform=SNES&game_id=01234567-89ab-4def-8123-456789abcdef"))
        (after (add_game env0 snes_zelda) ∅) = ∅.
Proof.
  refine (proj1 (add_then_delete_restores env0 snes_zelda
            (form_of "platform=SNES&game_id=01234567-89ab-4def-8123-456789abcdef")
            "SNES" "Zelda" ∅ _ _ _ _ _ _ _)).
  - reflexivity.
  - discriminate.
  - reflexivity.
  - discriminate.
  - reflexivity.
  - reflexivity.
  - apply lookup_empty.
Defined.

Lemma every_record_in_one_listing_witness :
  shows get_all_games_data two_platforms ("PS5", str_uuid (uuid4 env1)) ∨
  shows get_wishlist_data two_platforms ("PS5", str_uuid (uuid4 env1)).
Proof.
  destruct (every_record_in_one_listing
              [AddGame env0 snes_zelda; AddGame env1 ps5_astro] ∅
              ("PS5", str_uuid (uuid4 env1))) as [[H _]|[H _]].
  - intros k a Ha. by rewrite lookup_empty in Ha.
  - eexists. apply lookup_insert_eq.
  - by left.
  - by right.
Defined.

Lemma owned_never_back_on_wishlist_witness :
  hides get_wishlist_data
    (run [AddToWishlist env1 ps5_astro;
          MarkAsPurchased (form_of "platform=SNES&game_id=abc")]
         (after (add_game env0 snes_zelda) ∅))
    ("SNES", str_uuid (uuid4 env0)).
Proof.
  apply owned_never_back_on_wishlist.
  - repeat constructor; simpl; [|tauto]. vm_compute. discriminate.
  - intros a. unfold after.
    rewrite (add_game_valid env0 snes_zelda "SNES" "Zelda")
      by (reflexivity || discriminate).
    cbn [snd]. rewrite lookup_insert_eq. intros [= <-]. by right.
Defined.

(** * Further properties of the handler *)

(** ** Paths *)

Lemma routed_path_nonempty path : routed_path path ≠ "".
Proof. unfold routed_path. by case_decide. Qed.

Lemma routed_path_prefixed rest :
  routed_path (String "/" (String "g" (String "c" rest)))
  = if decide (rest = "") then "/" else rest.
Proof.
  unfold routed_path.
  change (String.prefix "/gc" (String "/" (String "g" (String "c" rest))))
    with (String.prefix "" rest).
  by destruct rest.
Qed.

Lemma routed_path_unprefixed path :
  String.prefix "/gc" path = false → path ≠ "" → routed_path path = path.
Proof. intros Hpre Hne. unfold routed_path. rewrite Hpre. by rewrite decide_False. Qed.

Lemma sorted_set_constant (l : list string) p :
  (∀ x, x ∈ l → x = p) →
  sorted_set l = if decide (l = []) then [] else [p].
Proof.
  intros Hall. destruct (sorted_set_spec l) as [Hsorted Helem].
  case_decide as Hl.
  - subst l. by vm_compute.
  - destruct l as [|y l]; [done|].
    assert (p ∈ sorted_set (y :: l)) as Hp.
    { apply Helem. rewrite <-(Hall y) by apply list_elem_of_here.
      apply list_elem_of_here. }
    assert (∀ x, x ∈ sorted_set (y :: l) → x = p) as Hall'.
    { intros x Hx. by apply Hall, Helem. }
    destruct (sorted_set (y :: l)) as [|a [|b s]].
    + by apply not_elem_of_nil in Hp.
    + f_equal. apply Hall', list_elem_of_here.
    + exfalso. inversion Hsorted as [|? ? _ Hlt]; subst.
      apply Forall_cons in Hlt as [[_ Hba] _]. apply Hba.
      rewrite (Hall' a), (Hall' b); [done|..].
      * apply list_elem_of_further, list_elem_of_here.
      * apply list_elem_of_here.
Qed.

Section handler_routes.
Variable parse_qs : string → gmap string (string * list string).
Variable jinja_render : string → list (string * jvalue) → string.

Local Abbreviation lambda_handler := (lambda_handler parse_qs jinja_render).
Local Abbreviation dispatch := (dispatch parse_qs jinja_render).
Local Abbreviation form_body := (form_body parse_qs).
Local Abbreviation render_html := (render_html jinja_render).
Local Abbreviation error_page := (error_page jinja_render).
Local Abbreviation not_found := (not_found jinja_render).

Lemma handler_of_dispatch e ev m p t :
  request_line ev = Returned (m, p) →
  lambda_handler e ev t =
    match dispatch e ev m (routed_path p) t with
    | (Returned r, t') => (Returned r, t')
    | (Raised ex, t') => (Returned (error_page ex), t')
    end.
Proof.
  intros Hline. unfold lambda_handler, bind, lift. by rewrite Hline.
Qed.

(** On a write route with a body, the dispatcher runs the writer and
    redirects when it returns. *)
Lemma dispatch_write e ev m p raw c t :
  ev_body ev = Some raw →
  write_call m p e (fst <$> parse_qs raw) = Some c →
  ∃ location,
    dispatch e ev m p t =
      match perform c t with
      | (Returned _, t') => (Returned (redirect_response location), t')
      | (Raised ex, t') => (Raised ex, t')
      end.
Proof.
  intros Hraw Hc. unfold write_call in Hc. unfold dispatch.
  assert (m = "POST" ∨ m = "DELETE") as [-> | ->].
  { repeat case_decide; auto; done. }
  - rewrite decide_True in Hc by done.
    rewrite decide_False by done. rewrite decide_True by done.
    unfold bind at 1. rewrite (form_body_present parse_qs ev raw) by done.
    repeat case_decide; try done; injection Hc as <-; simpl;
      eexists; unfold bind;
      match goal with |- context [match ?x with _ => _ end] =>
        destruct x as [[[]|ex] t1] end; reflexivity.
  - rewrite decide_False, decide_True in Hc by done.
    rewrite !decide_False by done. rewrite decide_True by done.
    unfold bind at 1. rewrite (form_body_present parse_qs ev raw) by done.
    repeat case_decide; try done; injection Hc as <-; simpl;
      eexists; unfold bind;
      match goal with |- context [match ?x with _ => _ end] =>
        destruct x as [[[]|ex] t1] end; reflexivity.
Qed.

(** Off the write routes the dispatcher leaves the table alone, and what
    it returns is a page. *)
Lemma dispatch_no_write e ev m p t :
  (∀ raw, ev_body ev = Some raw →
          write_call m p e (fst <$> parse_qs raw) = None) →
  (∃ r, dispatch e ev m p t = (Returned r, t) ∧ statusCode r = 200%Z) ∨
  (∃ ex, dispatch e ev m p t = (Raised ex, t)).
Proof.
  intros Hnone. unfold dispatch.
  assert (m = "GET" ∨ m = "POST" ∨ m = "DELETE" ∨
          (m ≠ "GET" ∧ m ≠ "POST" ∧ m ≠ "DELETE")) as Hm.
  { destruct (decide (m = "GET")), (decide (m = "POST")),
      (decide (m = "DELETE")); tauto. }
  destruct Hm as [-> | [-> | [-> | (Hget & Hpost & Hdelete)]]].
  - rewrite decide_True by done.
    left. repeat case_decide; eexists; split; reflexivity.
  - rewrite decide_False, decide_True by done. unfold bind at 1.
    destruct (ev_body ev) as [raw|] eqn:Hraw.
    + rewrite (form_body_present parse_qs ev raw) by done.
      specialize (Hnone raw eq_refl). unfold write_call in Hnone.
      rewrite decide_True in Hnone by done.
      left. repeat case_decide; try done. eexists. split; reflexivity.
    + right. unfold form_body, bind, lift. rewrite Hraw. simpl. eauto.
  - rewrite !decide_False, decide_True by done. unfold bind at 1.
    destruct (ev_body ev) as [raw|] eqn:Hraw.
    + rewrite (form_body_present parse_qs ev raw) by done.
      specialize (Hnone raw eq_refl). unfold write_call in Hnone.
      rewrite decide_False, decide_True in Hnone by done.
      left. repeat case_decide; try done. eexists. split; reflexivity.
    + right. unfold form_body, bind, lift. rewrite Hraw. simpl. eauto.
  - rewrite !decide_False by done. left. eexists. split; reflexivity.
Qed.

Lemma handler_write e ev m p raw c t :
  request_line ev = Returned (m, p) →
  ev_body ev = Some raw →
  write_call m (routed_path p) e (fst <$> parse_qs raw) = Some c →
  ∃ location,
    lambda_handler e ev t =
      match perform c t with
      | (Returned _, t') => (Returned (redirect_response location), t')
      | (Raised ex, _) => (Returned (error_page ex), t)
      end.
Proof.
  intros Hline Hraw Hc.
  destruct (dispatch_write e ev m (routed_path p) raw c t Hraw Hc)
    as [location Hd].
  exists location. rewrite (handler_of_dispatch e ev m p) by done. rewrite Hd.
  destruct (perform c t) as [[[]|ex] t'] eqn:Hperform; [done|].
  by apply perform_raised in Hperform as [-> _].
Qed.

Lemma handler_no_write e ev m p t :
  request_line ev = Returned (m, p) →
  (∀ raw, ev_body ev = Some raw →
          write_call m (routed_path p) e (fst <$> parse_qs raw) = None) →
  ∃ r, lambda_handler e ev t = (Returned r, t) ∧ statusCode r = 200%Z.
Proof.
  intros Hline Hnone. rewrite (handler_of_dispatch e ev m p) by done.
  destruct (dispatch_no_write e ev m (routed_path p) t Hnone)
    as [(r & -> & Hr)|(ex & ->)]; eexists; split; done.
Qed.

(** The two cases a request falls in. *)
Lemma write_route_or_not e ev m p :
  (∃ raw c, ev_body ev = Some raw ∧
            write_call m (routed_path p) e (fst <$> parse_qs raw) = Some c) ∨
  (∀ raw, ev_body ev = Some raw →
          write_call m (routed_path p) e (fst <$> parse_qs raw) = None).
Proof.
  destruct (ev_body ev) as [raw|]; [|by right].
  destruct (write_call m (routed_path p) e (fst <$> parse_qs raw)) as [c|] eqn:Hc.
  - left. eauto.
  - right. by intros ? [= <-].
Qed.

(** ** What a request does to the table *)

(** X9. The table after a request: on one of the five write routes, with
    a body, it is the table the writer of that route leaves; in every
    other case (any GET, an unknown method or path, no body) it is the
    table as it was. *)
Theorem handler_table_effect e ev m p t :
  request_line ev = Returned (m, p) →
  (lambda_handler e ev t).2 =
    match ev_body ev with
    | Some raw =>
        match write_call m (routed_path p) e (fst <$> parse_qs raw) with
        | Some c => after (perform c) t
        | None => t
        end
    | None => t
    end.
Proof.
  intros Hline.
  destruct (write_route_or_not e ev m p) as [(raw & c & Hraw & Hc)|Hnone].
  - rewrite Hraw, Hc.
    destruct (handler_write e ev m p raw c t Hline Hraw Hc) as [location ->].
    unfold after. destruct (perform c t) as [[[]|ex] t'] eqn:Hperform; [done|].
    by apply perform_raised in Hperform as [-> _].
  - destruct (handler_no_write e ev m p t Hline Hnone) as (r & -> & _).
    destruct (ev_body ev) as [raw|]; [|done]. by rewrite (Hnone raw).
Qed.

(** X10. A response with statusCode 200, error pages included, means
    that the table is as it was; a redirect is returned only after the
    writer of a write route has returned, and the table is the one it
    left. *)
Theorem redirect_only_after_write e ev t r t' :
  lambda_handler e ev t = (Returned r, t') →
  (statusCode r = 200%Z → t' = t) ∧
  (statusCode r = 303%Z →
     ∃ m p raw c,
       request_line ev = Returned (m, p) ∧
       ev_body ev = Some raw ∧
       write_call m (routed_path p) e (fst <$> parse_qs raw) = Some c ∧
       perform c t = (Returned (), t')).
Proof.
  intros Hrun.
  destruct (request_line ev) as [[m p]|ex] eqn:Hline.
  2: { unfold lambda_handler, bind, lift in Hrun. by rewrite Hline in Hrun. }
  destruct (write_route_or_not e ev m p) as [(raw & c & Hraw & Hc)|Hnone].
  - destruct (handler_write e ev m p raw c t Hline Hraw Hc) as [location Hw].
    rewrite Hw in Hrun.
    destruct (perform c t) as [[[]|ex] t1] eqn:Hperform;
      injection Hrun as <- <-; split; try done.
    intros _. by exists m, p, raw, c.
  - destruct (handler_no_write e ev m p t Hline Hnone) as (r0 & Hr0 & Hstatus).
    rewrite Hr0 in Hrun. injection Hrun as <- <-. split; [done|].
    intros H303. rewrite Hstatus in H303. discriminate H303.
Qed.

(** X11. A request changes at most one key of the table. *)
Theorem request_touches_one_key e ev t :
  ∃ k, ∀ k', k' ≠ k → (lambda_handler e ev t).2 !! k' = t !! k'.
Proof.
  destruct (request_line ev) as [[m p]|ex] eqn:Hline.
  2: { exists ("", ""). intros k' _.
       unfold lambda_handler, bind, lift. by rewrite Hline. }
  destruct (write_route_or_not e ev m p) as [(raw & c & Hraw & Hc)|Hnone].
  - destruct (handler_write e ev m p raw c t Hline Hraw Hc) as [location ->].
    destruct (perform_frame_key c t) as [k Hk]. exists k. intros k' Hk'.
    rewrite <-(Hk k' Hk'). unfold after.
    destruct (perform c t) as [[[]|ex] t1] eqn:Hperform; [done|].
    by apply perform_raised in Hperform as [-> _].
  - destruct (handler_no_write e ev m p t Hline Hnone) as (r & -> & _).
    by exists ("", "").
Qed.

(** X12. The two subscripts of the Function URL shape are outside the
    [try]: when the event has a requestContext with an http entry that
    lacks "method", or has it and lacks "path", the handler raises the
    [KeyError] of that key instead of returning a page, the top-level
    httpMethod and path are not looked at, and nothing is written. *)
Theorem malformed_http_context_escapes e ev http t :
  ev_requestContext ev = Some (Some http) →
  http_method http = None ∨ http_path http = None →
  lambda_handler e ev t =
    (Raised (KeyError (if decide (http_method http = None)
                       then "method" else "path")), t).
Proof.
  intros Hrc Hmissing.
  unfold lambda_handler, bind, lift, request_line. rewrite Hrc.
  destruct (http_method http) as [m|]; simpl.
  - destruct Hmissing as [Hm|Hp]; [discriminate Hm|]. by rewrite Hp.
  - reflexivity.
Qed.

(** X13. A POST or DELETE whose event has no body gets the error page
    with the message of the [KeyError], whatever the path, and writes
    nothing. *)
Theorem missing_body_error_page e ev m p t :
  request_line ev = Returned (m, p) →
  m = "POST" ∨ m = "DELETE" →
  ev_body ev = None →
  lambda_handler e ev t =
    (Returned (render_html "error.html"
                 [("status_code", JInt 500); ("message", JStr "'body'")]), t).
Proof.
  intros Hline Hm Hbody. rewrite (handler_of_dispatch e ev m p) by done.
  unfold dispatch.
  destruct Hm as [-> | ->].
  - rewrite decide_False, decide_True by done.
    unfold bind, form_body, bind, lift. by rewrite Hbody.
  - rewrite !decide_False, decide_True by done.
    unfold bind, form_body, bind, lift. by rewrite Hbody.
Qed.

(** X14. A POST or DELETE with a body on a path that is no write route
    gets the "Not found" page and writes nothing: the body is parsed but
    not looked at. *)
Theorem unrouted_write_not_found e ev m p raw t :
  request_line ev = Returned (m, p) →
  m = "POST" ∨ m = "DELETE" →
  ev_body ev = Some raw →
  write_call m (routed_path p) e (fst <$> parse_qs raw) = None →
  lambda_handler e ev t =
    (Returned (render_html "error.html"
                 [("status_code", JInt 404); ("message", JStr "Not found")]), t).
Proof.
  intros Hline Hm Hraw Hc. rewrite (handler_of_dispatch e ev m p) by done.
  unfold dispatch, write_call in *.
  destruct Hm as [-> | ->].
  - rewrite decide_True in Hc by done.
    rewrite decide_False, decide_True by done.
    unfold bind at 1. rewrite (form_body_present parse_qs ev raw) by done.
    by repeat case_decide.
  - rewrite decide_False, decide_True in Hc by done.
    rewrite !decide_False, decide_True by done.
    unfold bind at 1. rewrite (form_body_present parse_qs ev raw) by done.
    by repeat case_decide.
Qed.

(** X15. The handler reads the event only through its method, its routed
    path and its body: two events that agree on these, in either shape
    and with or without the "/gc" prefix, get the same answer. *)
Theorem same_request_same_answer e ev1 ev2 m p1 p2 t :
  request_line ev1 = Returned (m, p1) →
  request_line ev2 = Returned (m, p2) →
  routed_path p1 = routed_path p2 →
  ev_body ev1 = ev_body ev2 →
  lambda_handler e ev1 t = lambda_handler e ev2 t.
Proof.
  intros H1 H2 Hpath Hbody.
  rewrite (handler_of_dispatch e ev1 m p1), (handler_of_dispatch e ev2 m p2)
    by done.
  rewrite Hpath. unfold dispatch, form_body. by rewrite Hbody.
Qed.

(** ** The pages *)

Lemma get_platform_response e ev path t :
  request_line ev = Returned ("GET", path) →
  routed_path path ≠ "/" →
  routed_path path ≠ "/wishlist" →
  lambda_handler e ev t =
    (Returned (render_html "index.html"
       [("games", JItems (select (λ kv, kv.1.1 = lstrip_slash (routed_path path)
                                        ∧ is_owned kv.2) t));
        ("platforms",
         JStrs (sorted_set (platform <$>
                 select (λ kv, kv.1.1 = lstrip_slash (routed_path path)
                               ∧ is_owned kv.2) t)));
        ("selected_platform", JStr (lstrip_slash (routed_path path)))]), t).
Proof.
  intros Hline Hroot Hwish.
  rewrite (handler_of_dispatch e ev "GET" path) by done.
  unfold dispatch. rewrite decide_True by done.
  by rewrite !decide_False by done.
Qed.

Lemma platforms_of_platform_listing p t :
  sorted_set (platform <$> select (λ kv, kv.1.1 = p ∧ is_owned kv.2) t)
  = if decide (select (λ kv, kv.1.1 = p ∧ is_owned kv.2) t = []) then []
    else [p].
Proof.
  rewrite (sorted_set_constant _ p).
  - destruct (select _ t) as [|g l]; by repeat case_decide.
  - intros x. rewrite list_elem_of_fmap. intros (g & -> & Hg).
    apply elem_of_select in Hg as [_ [Hp _]]. exact Hp.
Qed.

(** X16. A GET of "/wishlist" renders the wishlist template with the
    wishlist scan: every item handed over has status "wishlist", and
    [platforms] is strictly ascending and made of exactly the platform
    fields of those items. *)
Theorem get_wishlist_page e ev path t :
  request_line ev = Returned ("GET", path) →
  routed_path path = "/wishlist" →
  ∃ wishlist platforms,
    get_wishlist_data t = (Returned wishlist, t) ∧
    lambda_handler e ev t =
      (Returned (render_html "wishlist.html"
                   [("wishlist", JItems wishlist);
                    ("platforms", JStrs platforms)]), t) ∧
    (∀ g, g ∈ wishlist → fields g !! "status" = Some (AttrS "wishlist")) ∧
    StronglySorted (strict String.le) platforms ∧
    (∀ q, q ∈ platforms ↔ ∃ g, g ∈ wishlist ∧ platform g = q).
Proof.
  intros Hline Hpath.
  eexists _, _. split; [reflexivity|]. split.
  { rewrite (handler_of_dispatch e ev "GET" path) by done.
    rewrite Hpath. reflexivity. }
  split; [|split; [apply sorted_set_spec|]].
  - intros g Hg. apply elem_of_select in Hg as [_ Hw]. exact Hw.
  - intros q. rewrite (proj2 (sorted_set_spec _)), list_elem_of_fmap.
    split; intros (g & ? & ?); eauto.
Qed.

(** X17. A GET of any other path that is not made of slashes alone
    renders the index template for the platform named by the path without
    its leading slashes: the games are the owned games of that platform,
    and [platforms] holds that platform alone, or nothing when the
    platform has no owned game. *)
Theorem get_platform_page e ev path t :
  request_line ev = Returned ("GET", path) →
  routed_path path ≠ "/" →
  routed_path path ≠ "/wishlist" →
  lstrip_slash (routed_path path) ≠ "" →
  ∃ games,
    get_games_by_platform_data (lstrip_slash (routed_path path)) t
      = (Returned games, t) ∧
    lambda_handler e ev t =
      (Returned (render_html "index.html"
         [("games", JItems games);
          ("platforms",
           JStrs (if decide (games = []) then []
                  else [lstrip_slash (routed_path path)]));
          ("selected_platform", JStr (lstrip_slash (routed_path path)))]), t).
Proof.
  intros Hline Hroot Hwish _. eexists. split; [reflexivity|].
  rewrite (get_platform_response e ev path) by done.
  by rewrite platforms_of_platform_listing.
Qed.

(** X18. A POST to "/wishlist/purchased" whose body has non-empty
    platform and game_id sets the status of that key to "owned", creating
    the record when the key is free, and redirects to "/gc/wishlist";
    otherwise it writes nothing and returns the error page with the
    missing-fields message of the purchase. *)
Theorem post_wishlist_purchased_response e ev path raw t :
  request_line ev = Returned ("POST", path) →
  routed_path path = "/wishlist/purchased" →
  ev_body ev = Some raw →
  lambda_handler e ev t =
    match required ((fst <$> parse_qs raw) !! "platform"),
          required ((fst <$> parse_qs raw) !! "game_id") with
    | Some p, Some g =>
        (Returned (redirect_response "/gc/wishlist"),
         <[(p, g) := <["status" := AttrS "owned"]> (default ∅ (t !! (p, g)))]> t)
    | _, _ =>
        (Returned (error_page
           (ValueError "Missing required fields: platform, game_id")), t)
    end.
Proof.
  intros Hline Hpath Hraw.
  rewrite (handler_of_dispatch e ev "POST" path) by done.
  rewrite Hpath. unfold dispatch.
  rewrite decide_False, decide_True by done.
  unfold bind at 1. rewrite (form_body_present parse_qs ev raw) by done.
  rewrite !decide_False, decide_True by done.
  unfold bind, mark_as_purchased.
  destruct (required (_ !! "platform")) as [p|]; [|done].
  by destruct (required (_ !! "game_id")) as [g|].
Qed.

(** ** Following a redirect *)

(** X19. After a POST to "/add" with a valid body, a GET of the Location
    of the redirect renders the index page of the platform of the new
    game, with the new game among the games, provided the platform is not
    named "wishlist" and does not begin with a slash. *)
Theorem follow_redirect_after_add e ev path raw p n e' ev' t :
  request_line ev = Returned ("POST", path) →
  routed_path path = "/add" →
  ev_body ev = Some raw →
  (fst <$> parse_qs raw) !! "platform" = Some p → p ≠ "" →
  (fst <$> parse_qs raw) !! "game_name" = Some n → n ≠ "" →
  p ≠ "wishlist" →
  lstrip_slash p = p →
  request_line ev' = Returned ("GET", "/gc/" ++ p) →
  ∃ t' games,
    lambda_handler e ev t = (Returned (redirect_response ("/gc/" ++ p)), t') ∧
    lambda_handler e' ev' t' =
      (Returned (render_html "index.html"
         [("games", JItems games); ("platforms", JStrs [p]);
          ("selected_platform", JStr p)]), t') ∧
    listed (p, str_uuid (uuid4 e)) games.
Proof.
  intros Hline Hpath Hraw Hp Hp' Hn Hn' Hwish Hstrip Hline'.
  set (body := fst <$> parse_qs raw) in *.
  set (t' := <[(p, str_uuid (uuid4 e)) := created_fields "owned" e body n]> t).
  assert (routed_path ("/gc/" ++ p) = String "/" p) as Hrouted.
  { change ("/gc/" ++ p) with (String "/" (String "g" (String "c" (String "/" p)))).
    by rewrite routed_path_prefixed. }
  assert (lstrip_slash (String "/" p) = p) as Hplatform.
  { exact Hstrip. }
  exists t', (select (λ kv, kv.1.1 = p ∧ is_owned kv.2) t').
  assert (listed (p, str_uuid (uuid4 e))
            (select (λ kv, kv.1.1 = p ∧ is_owned kv.2) t')) as Hlisted.
  { apply listed_select. eexists. split; [apply lookup_insert_eq|].
    split; [done|]. by right. }
  split; [|split; [|exact Hlisted]].
  - rewrite (post_add_response parse_qs jinja_render e ev path raw) by done.
    fold body.
    rewrite (proj2 (required_Some _ p)), (proj2 (required_Some _ n)) by done.
    unfold after. by rewrite (add_game_valid e body p n) by done.
  - rewrite (get_platform_response e' ev' ("/gc/" ++ p)); rewrite ?Hrouted.
    + rewrite Hplatform, platforms_of_platform_listing.
      rewrite decide_False; [done|].
      intros Hnil. destruct Hlisted as (g & Hg & _). rewrite Hnil in Hg.
      by apply not_elem_of_nil in Hg.
    + done.
    + intros [= ->]. done.
    + intros [= ->]. done.
Qed.

(** X20. After a DELETE to "/delete" with a valid body, a GET of the
    Location of the redirect renders the index page of the platform of the
    deleted game, without that game, provided the platform is not named
    "wishlist", does not begin with a slash and does not begin with "gc"
    (the Location has no "/gc" prefix, and the handler strips one from
    whatever path begins with these three characters). *)
Theorem follow_redirect_after_delete e ev path raw p g e' ev' t :
  request_line ev = Returned ("DELETE", path) →
  routed_path path = "/delete" →
  ev_body ev = Some raw →
  (fst <$> parse_qs raw) !! "platform" = Some p → p ≠ "" →
  (fst <$> parse_qs raw) !! "game_id" = Some g → g ≠ "" →
  p ≠ "wishlist" →
  lstrip_slash p = p →
  String.prefix "gc" p = false →
  request_line ev' = Returned ("GET", "/" ++ p) →
  ∃ t' games,
    lambda_handler e ev t = (Returned (redirect_response ("/" ++ p)), t') ∧
    lambda_handler e' ev' t' =
      (Returned (render_html "index.html"
         [("games", JItems games);
          ("platforms", JStrs (if decide (games = []) then [] else [p]));
          ("selected_platform", JStr p)]), t') ∧
    ¬ listed (p, g) games.
Proof.
  intros Hline Hpath Hraw Hp Hp' Hg Hg' Hwish Hstrip Hgc Hline'.
  set (body := fst <$> parse_qs raw) in *.
  assert (routed_path ("/" ++ p) = String "/" p) as Hrouted.
  { change ("/" ++ p) with (String "/" p). by apply routed_path_unprefixed. }
  assert (lstrip_slash (String "/" p) = p) as Hplatform.
  { exact Hstrip. }
  exists (delete (p, g) t),
         (select (λ kv, kv.1.1 = p ∧ is_owned kv.2) (delete (p, g) t)).
  split; [|split].
  - rewrite (delete_response parse_qs jinja_render e ev path raw) by auto.
    fold body.
    rewrite (proj2 (required_Some _ p)), (proj2 (required_Some _ g)) by done.
    by rewrite Hpath, decide_True.
  - rewrite (get_platform_response e' ev' ("/" ++ p)); rewrite ?Hrouted.
    + by rewrite Hplatform, platforms_of_platform_listing.
    + done.
    + intros [= ->]. done.
    + intros [= ->]. done.
  - rewrite listed_select. intros (a & Ha & _).
    by rewrite lookup_delete_eq in Ha.
Qed.

End handler_routes.

(** ** At sample requests *)

Lemma handler_table_effect_witness :
  (lambda_handler parse_qs_unescaped plain_render env0
     (url_event "POST" "/gc/add" (Some "platform=SNES&game_name=Zelda")) ∅).2
  = after (add_game env0 snes_zelda) ∅.
Proof.
  exact (handler_table_effect parse_qs_unescaped plain_render env0
           (url_event "POST" "/gc/add" (Some "platform=SNES&game_name=Zelda"))
           "POST" "/gc/add" ∅ eq_refl).
Defined.

Lemma redirect_only_after_write_witness :
  ∃ r t',
    lambda_handler parse_qs_unescaped plain_render env0
      (proxy_event "POST" "/gc/add" (Some "platform=SNES")) two_platforms
    = (Returned r, t') ∧ t' = two_platforms.
Proof.
  assert (lambda_handler parse_qs_unescaped plain_render env0
            (proxy_event "POST" "/gc/add" (Some "platform=SNES")) two_platforms
          = (Returned (error_page plain_render
                         (ValueError "Missing required fields: platform, game_name")),
             two_platforms)) as Hrun by reflexivity.
  eexists _, _. split; [exact Hrun|].
  exact (proj1 (redirect_only_after_write parse_qs_unescaped plain_render env0
                  (proxy_event "POST" "/gc/add" (Some "platform=SNES"))
                  two_platforms _ _ Hrun) eq_refl).
Defined.

Lemma malformed_http_context_escapes_witness :
  lambda_handler parse_qs_unescaped plain_render env0
    (Event (Some (Some (HttpInfo (Some "GET") None))) (Some "GET") (Some "/") None)
    two_platforms
  = (Raised (KeyError "path"), two_platforms).
Proof.
  exact (malformed_http_context_escapes parse_qs_unescaped plain_render env0
           (Event (Some (Some (HttpInfo (Some "GET") None)))
                  (Some "GET") (Some "/") None)
           (HttpInfo (Some "GET") None) two_platforms
           eq_refl (or_intror eq_refl)).
Defined.

Lemma missing_body_error_page_witness :
  lambda_handler parse_qs_unescaped plain_render env0
    (proxy_event "DELETE" "/gc/nowhere" None) two_platforms
  = (Returned (render_html plain_render "error.html"
                 [("status_code", JInt 500); ("message", JStr "'body'")]),
     two_platforms).
Proof.
  exact (missing_body_error_page parse_qs_unescaped plain_render env0
           (proxy_event "DELETE" "/gc/nowhere" None) "DELETE" "/gc/nowhere"
           two_platforms eq_refl (or_intror eq_refl) eq_refl).
Defined.

Lemma unrouted_write_not_found_witness :
  lambda_handler parse_qs_unescaped plain_render env0
    (url_event "POST" "/gc/purchased" (Some "platform=SNES&game_id=abc"))
    two_platforms
  = (Returned (render_html plain_render "error.html"
                 [("status_code", JInt 404); ("message", JStr "Not found")]),
     two_platforms).
Proof.
  exact (unrouted_write_not_found parse_qs_unescaped plain_render env0
           (url_event "POST" "/gc/purchased" (Some "platform=SNES&game_id=abc"))
           "POST" "/gc/purchased" "platform=SNES&game_id=abc" two_platforms
           eq_refl (or_introl eq_refl) eq_refl eq_refl).
Defined.

Lemma same_request_same_answer_witness :
  lambda_handler parse_qs_unescaped plain_render env0
    (url_event "GET" "/gc/SNES" None) two_platforms
  = lambda_handler parse_qs_unescaped plain_render env0
      (proxy_event "GET" "/SNES" None) two_platforms.
Proof.
  exact (same_request_same_answer parse_qs_unescaped plain_render env0
           (url_event "GET" "/gc/SNES" None) (proxy_event "GET" "/SNES" None)
           "GET" "/gc/SNES" "/SNES" two_platforms
           eq_refl eq_refl eq_refl eq_refl).
Defined.

Lemma get_wishlist_page_witness :
  ∃ wishlist platforms,
    lambda_handler parse_qs_unescaped plain_render env0
      (url_event "GET" "/gc/wishlist" None) two_platforms
    = (Returned (render_html plain_render "wishlist.html"
                   [("wishlist", JItems wishlist);
                    ("platforms", JStrs platforms)]), two_platforms).
Proof.
  destruct (get_wishlist_page parse_qs_unescaped plain_render env0
              (url_event "GET" "/gc/wishlist" None) "/gc/wishlist" two_platforms)
    as (wishlist & platforms & _ & Hrun & _); [reflexivity..|].
  exists wishlist, platforms. exact Hrun.
Defined.

Lemma get_platform_page_witness :
  ∃ games,
    get_games_by_platform_data "SNES" two_platforms
    = (Returned games, two_platforms).
Proof.
  destruct (get_platform_page parse_qs_unescaped plain_render env0
              (url_event "GET" "/gc//SNES" None) "/gc//SNES" two_platforms)
    as (games & Hgames & _).
  - reflexivity.
  - intros H. vm_compute in H. discriminate H.
  - intros H. vm_compute in H. discriminate H.
  - intros H. vm_compute in H. discriminate H.
  - exists games. exact Hgames.
Defined.

Lemma post_wishlist_purchased_response_witness :
  lambda_handler parse_qs_unescaped plain_render env0
    (url_event "POST" "/gc/wishlist/purchased" (Some "platform=SNES&game_id=abc")) ∅
  = (Returned (redirect_response "/gc/wishlist"),
     <[("SNES", "abc") := <["status" := AttrS "owned"]> ∅]> ∅).
Proof.
  exact (post_wishlist_purchased_response parse_qs_unescaped plain_render env0
           (url_event "POST" "/gc/wishlist/purchased"
              (Some "platform=SNES&game_id=abc"))
           "/gc/wishlist/purchased" "platform=SNES&game_id=abc" ∅
           eq_refl eq_refl eq_refl).
Defined.

Lemma follow_redirect_after_add_witness :
  ∃ t' games,
    lambda_handler parse_qs_unescaped plain_render env1
      (url_event "GET" "/gc/SNES" None) t'
    = (Returned (render_html plain_render "index.html"
         [("games", JItems games); ("platforms", JStrs ["SNES"]);
          ("selected_platform", JStr "SNES")]), t') ∧
    listed ("SNES", str_uuid (uuid4 env0)) games.
Proof.
  destruct (follow_redirect_after_add parse_qs_unescaped plain_render env0
              (url_event "POST" "/gc/add" (Some "platform=SNES&game_name=Zelda"))
              "/gc/add" "platform=SNES&game_name=Zelda" "SNES" "Zelda"
              env1 (url_event "GET" "/gc/SNES" None) ∅)
    as (t' & games & _ & Hget & Hlisted);
    [reflexivity|reflexivity|reflexivity|reflexivity|discriminate
    |reflexivity|discriminate|discriminate|reflexivity|reflexivity|].
  exists t', games. split; [exact Hget|exact Hlisted].
Defined.

Lemma follow_redirect_after_delete_witness :
  ∃ t' games,
    lambda_handler parse_qs_unescaped plain_render env0
      (url_event "DELETE" "/gc/delete"
         (Some "platform=SNES&game_id=01234567-89ab-4def-8123-456789abcdef"))
      two_platforms
    = (Returned (redirect_response "/SNES"), t') ∧
    ¬ listed ("SNES", "01234567-89ab-4def-8123-456789abcdef") games.
Proof.
  destruct (follow_redirect_after_delete parse_qs_unescaped plain_render env0
              (url_event "DELETE" "/gc/delete"
                 (Some "platform=SNES&game_id=01234567-89ab-4def-8123-456789abcdef"))
              "/gc/delete"
              "platform=SNES&game_id=01234567-89ab-4def-8123-456789abcdef"
              "SNES" "01234567-89ab-4def-8123-456789abcdef"
              env1 (proxy_event "GET" "/SNES" None) two_platforms)
    as (t' & games & Hdel & _ & Hgone);
    [reflexivity|reflexivity|reflexivity|reflexivity|discriminate
    |reflexivity|discriminate|discriminate|reflexivity|reflexivity|reflexivity|].
  exists t', games. split; [exact Hdel|exact Hgone].
Defined.
